(** * cdr_kafka: the Kafka CDR backend and the Kafka client interface it uses

    The development has two parts.

    - [Module CdrKafka] embeds [cdr_kafka.c]: the key extraction
      [cdr_get_key_value], the producer cache [setup_cached_producer] and
      the CDR handler [kafka_cdr_log].  The functions of [res_kafka] and of
      the JSON library that the handler calls are the members of a class
      [Host], over which every statement about the handler is proved.
    - [Module ResKafka] is a model of the client behind [asterisk/kafka.h]
      (connection registry, producer and consumer handles, admin task
      queue), written from the specification, since only the header of
      that component is available. *)

From Stdlib Require Import ZArith Ascii String List Bool Lia.
From stdpp Require Import base option list strings pretty gmap.

Local Open Scope string_scope.
Local Open Scope Z_scope.

(** ** C strings

    A [const char *] is [option string]: [None] is the NULL pointer and
    [Some s] the bytes before the terminating NUL. *)

Module CString.

(** [tolower] of the C locale on one byte. *)
Definition tolower (c : ascii) : ascii :=
  let n := N_of_ascii c in
  if ((65 <=? n) && (n <=? 90))%N then ascii_of_N (n + 32) else c.

Definition code (c : ascii) : Z := Z.of_N (N_of_ascii c).

(** [strcasecmp]: the bytes are compared after [tolower]; the result is the
    difference at the first position where they differ.  When one string
    ends first the terminator is the smaller byte, and only the sign of the
    result is kept for that case. *)
Fixpoint strcasecmp (s1 s2 : string) : Z :=
  match s1, s2 with
  | EmptyString, EmptyString => 0
  | EmptyString, String _ _ => -1
  | String _ _, EmptyString => 1
  | String c1 r1, String c2 r2 =>
      let d := code (tolower c1) - code (tolower c2) in
      if d =? 0 then strcasecmp r1 r2 else d
  end.

(** [ast_strlen_zero(s)]: [!s || *s == '\0']. *)
Definition ast_strlen_zero (s : option string) : bool :=
  match s with
  | None => true
  | Some EmptyString => true
  | Some (String _ _) => false
  end.

(** The string with every byte lowered, used to state what a
    case-insensitive comparison decides. *)
Fixpoint lower (s : string) : string :=
  match s with
  | EmptyString => EmptyString
  | String c r => String (tolower c) (lower r)
  end.

End CString.

(** ** cdr_kafka.c *)

Module CdrKafka.
Import CString.

(** *** Data of the host (asterisk/cdr.h, asterisk/json.h) *)

Record timeval := { tv_sec : Z; tv_usec : Z }.

(** One entry of [cdr->varshead] ([struct ast_var_t]). *)
Record ast_var_t := { name : string; value : string }.

(** [struct ast_cdr], the members the backend reads.  The text members are
    character arrays inside the structure, hence never NULL. *)
Record ast_cdr := {
  clid : string;
  src : string;
  dst : string;
  dcontext : string;
  channel : string;
  dstchannel : string;
  lastapp : string;
  lastdata : string;
  start : timeval;
  answer : timeval;
  end_ : timeval;
  duration : Z;
  billsec : Z;
  disposition : Z;
  amaflags : Z;
  accountcode : string;
  peeraccount : string;
  uniqueid : string;
  linkedid : string;
  tenantid : string;
  userfield : string;
  sequence : Z;
  varshead : list ast_var_t
}.

(** [struct ast_json]: the values the backend builds.  An object keeps its
    members in insertion order. *)
#[warnings="-register-all"]
Inductive ast_json :=
| JsonString (s : string)
| JsonInteger (i : Z)
| JsonObject (members : list (string * ast_json)).

(** Replace the value of [k] where it stands, or append a new member. *)
Fixpoint members_set (ms : list (string * ast_json)) (k : string) (v : ast_json)
  : list (string * ast_json) :=
  match ms with
  | [] => [(k, v)]
  | (k', v') :: rest =>
      if String.eqb k' k then (k, v) :: rest else (k', v') :: members_set rest k v
  end.

Fixpoint members_get (ms : list (string * ast_json)) (k : string) : option ast_json :=
  match ms with
  | [] => None
  | (k', v') :: rest => if String.eqb k' k then Some v' else members_get rest k
  end.

(** [ast_json_object_get(object, key)], NULL when there is no such member. *)
Definition ast_json_object_get (object : ast_json) (k : string) : option ast_json :=
  match object with
  | JsonObject ms => members_get ms k
  | _ => None
  end.

(** [k] names a member of the list. *)
Definition member_of (ms : list (string * ast_json)) (k : string) : bool :=
  match members_get ms k with Some _ => true | None => false end.

Definition has_member (object : ast_json) (k : string) : bool :=
  match ast_json_object_get object k with Some _ => true | None => false end.

(** *** Configuration (struct cdr_kafka_global_conf, struct cdr_kafka_conf)

    String fields are initialised by [ast_string_field_init] and are never
    NULL; the flags are C ints set by [OPT_BOOL_T]. *)
Record cdr_kafka_global_conf := {
  connection : string;
  topic : string;
  key : string;
  loguniqueid : Z;
  loguserfield : Z
}.

Record cdr_kafka_conf := { global : option cdr_kafka_global_conf }.

(** [struct ast_kafka_producer *]: the identity of an AO2 object. *)
Definition ast_kafka_producer : Type := positive.

Inductive log_level := LOG_NOTICE | LOG_WARNING | LOG_ERROR.

(** What the module does to the outside, in program order: log lines (the
    format without its final newline, and its arguments) and the calls into
    res_kafka with the value each returned. *)
Inductive event :=
| EvLog (level : log_level) (fmt : string) (args : list string)
| EvGetProducer (conn : string) (ret : option ast_kafka_producer)
| EvProduce (producer : ast_kafka_producer) (tpc : string) (k : option string)
    (payload : string) (len : Z) (ret : Z).

(** *** Key extraction (cdr_kafka.c, cdr_get_key_value)

    The function only reads [cdr]; its result is the text of the member the
    returned pointer designates. *)
Definition cdr_get_key_value (cdr : ast_cdr) (field_name : option string)
  : option string :=
  if ast_strlen_zero field_name then None
  else match field_name with
  | None => None
  | Some field_name =>
      if strcasecmp field_name "linkedid" =? 0 then Some (linkedid cdr)
      else if strcasecmp field_name "uniqueid" =? 0 then Some (uniqueid cdr)
      else if strcasecmp field_name "channel" =? 0 then Some (channel cdr)
      else if strcasecmp field_name "dstchannel" =? 0 then Some (dstchannel cdr)
      else if strcasecmp field_name "accountcode" =? 0 then Some (accountcode cdr)
      else if strcasecmp field_name "src" =? 0 then Some (src cdr)
      else if strcasecmp field_name "dst" =? 0 then Some (dst cdr)
      else if strcasecmp field_name "dcontext" =? 0 then Some (dcontext cdr)
      else if strcasecmp field_name "tenantid" =? 0 then Some (tenantid cdr)
      else None
  end.

(** The documented key names (configOption "key") with the member each
    one designates. *)
Definition key_fields : list (string * (ast_cdr -> string)) :=
  [ ("linkedid", linkedid); ("uniqueid", uniqueid); ("channel", channel);
    ("dstchannel", dstchannel); ("accountcode", accountcode); ("src", src);
    ("dst", dst); ("dcontext", dcontext); ("tenantid", tenantid) ].

Definition key_names : list string := map fst key_fields.

Fixpoint assoc_field (tbl : list (string * (ast_cdr -> string))) (n : string)
  : option (ast_cdr -> string) :=
  match tbl with
  | [] => None
  | (n', f) :: rest => if String.eqb n' n then Some f else assoc_field rest n
  end.

(** *** The functions the module calls

    [res_kafka] and the JSON library are not part of this module.  Their
    functions are the members of [Host]: pointers they return are options
    (NULL is [None]), and [res_kafka] works on a state [kafka] of its own. *)
Class Host := {
  kafka : Type;
  (** asterisk/kafka.h *)
  ast_kafka_get_producer : string -> kafka -> option ast_kafka_producer * kafka;
  ast_kafka_produce :
    ast_kafka_producer -> string -> option string -> string -> Z -> kafka -> Z * kafka;
  (** asterisk/json.h; [utf8_check_string] is the check the JSON library
      makes of a member name before it sets or packs the member *)
  utf8_check_string : string -> bool;
  ast_json_string_create : string -> option ast_json;
  ast_json_timeval : timeval -> option ast_json;
  ast_json_dump_string : ast_json -> option string;
  (** asterisk/cdr.h, asterisk/channel.h *)
  ast_cdr_disp2str : Z -> string;
  ast_channel_amaflags2string : Z -> string;
  (** [ast_eid_to_str] of [ast_eid_default], and asterisk/paths.h *)
  ast_eid_default_str : string;
  ast_config_AST_SYSTEM_NAME : string
}.

Section Module_state.
Context {H : Host}.

(** The two global AO2 holders of the module, the state of res_kafka, and
    the events so far. *)
Record world := {
  confs : option cdr_kafka_conf;
  cached_producer : option ast_kafka_producer;
  kafka_st : kafka;
  trace : list event
}.

Definition emit (e : event) (w : world) : world :=
  {| confs := confs w; cached_producer := cached_producer w;
     kafka_st := kafka_st w; trace := trace w ++ [e] |}.

Definition ast_log (level : log_level) (fmt : string) (args : list string)
  (w : world) : world :=
  emit (EvLog level fmt args) w.

(** A call of [ast_kafka_get_producer], recorded with its result. *)
Definition get_producer (conn : string) (w : world)
  : option ast_kafka_producer * world :=
  let '(p, k) := ast_kafka_get_producer conn (kafka_st w) in
  (p, emit (EvGetProducer conn p)
        {| confs := confs w; cached_producer := cached_producer w;
           kafka_st := k; trace := trace w |}).

(** A call of [ast_kafka_produce], recorded with its result. *)
Definition produce (p : ast_kafka_producer) (tpc : string) (k : option string)
  (payload : string) (len : Z) (w : world) : Z * world :=
  let '(res, k') := ast_kafka_produce p tpc k payload len (kafka_st w) in
  (res, emit (EvProduce p tpc k payload len res)
          {| confs := confs w; cached_producer := cached_producer w;
             kafka_st := k'; trace := trace w |}).

(** [setup_cached_producer] (cdr_kafka.c, 206-225). *)
Definition setup_cached_producer (w : world) : Z * world :=
  match confs w with
  | Some {| global := Some g |} =>
      if ast_strlen_zero (Some (connection g)) then
        (-1, ast_log LOG_WARNING "No Kafka connection configured" [] w)
      else
        let '(producer, w1) := get_producer (connection g) w in
        match producer with
        | None =>
            (-1, ast_log LOG_ERROR "Failed to get Kafka producer for connection '%s'"
                   [connection g] w1)
        | Some p =>
            (* ao2_global_obj_replace_unref(cached_producer, producer) *)
            (0, {| confs := confs w1; cached_producer := Some p;
                   kafka_st := kafka_st w1; trace := trace w1 |})
        end
  | _ => (-1, ast_log LOG_WARNING "No Kafka connection configured" [] w)
  end.

(** *** The JSON object of one record (kafka_cdr_log, 291-357) *)

(** [ast_json_object_set(object, key, value)]: 0 and the member set, or -1
    and the object as it was when [value] is NULL, [object] is no object
    or the library refuses [key] as a member name. *)
Definition ast_json_object_set (object : ast_json) (k : string) (v : option ast_json)
  : Z * ast_json :=
  match object, v with
  | JsonObject ms, Some v =>
      if utf8_check_string k then (0, JsonObject (members_set ms k v))
      else (-1, object)
  | _, _ => (-1, object)
  end.

(** A C [int] read from a wider argument: the low 32 bits, signed. *)
Definition to_int (z : Z) : Z := (z + 2 ^ 31) mod 2 ^ 32 - 2 ^ 31.

(** One value of the argument list of [ast_json_pack], by its format
    letter: [s] a C string, [o] a JSON value given away, [i] an int.  The
    record's [duration] and [billsec] are C longs passed under [i], of
    which [ast_json_pack] reads an int. *)
Inductive pack_value :=
| PackS (s : string)
| PackO (o : option ast_json)
| PackI (i : Z).

Definition pack_create (v : pack_value) : option ast_json :=
  match v with
  | PackS s => ast_json_string_create s
  | PackO o => o
  | PackI i => Some (JsonInteger (to_int i))
  end.

(** [ast_json_pack("{s: v, ...}", ...)]: the object with the members in
    the order given, NULL when a member name is refused, a value cannot be
    created or an [o] value is NULL.  A string member is created as
    [ast_json_string_create] creates it. *)
Fixpoint pack_members (args : list (string * pack_value)) (acc : list (string * ast_json))
  : option (list (string * ast_json)) :=
  match args with
  | [] => Some acc
  | (k, v) :: rest =>
      if utf8_check_string k then
        match pack_create v with
        | None => None
        | Some j => pack_members rest (members_set acc k j)
        end
      else None
  end.

Definition ast_json_pack (args : list (string * pack_value)) : option ast_json :=
  match pack_members args [] with
  | Some ms => Some (JsonObject ms)
  | None => None
  end.

(** The arguments of the [ast_json_pack] call of [kafka_cdr_log]. *)
Definition cdr_pack_args (cdr : ast_cdr) : list (string * pack_value) :=
  [ ("clid", PackS (clid cdr));
    ("src", PackS (src cdr));
    ("dst", PackS (dst cdr));
    ("dcontext", PackS (dcontext cdr));
    ("channel", PackS (channel cdr));
    ("dstchannel", PackS (dstchannel cdr));
    ("lastapp", PackS (lastapp cdr));
    ("lastdata", PackS (lastdata cdr));
    ("start", PackO (ast_json_timeval (start cdr)));
    ("answer", PackO (ast_json_timeval (answer cdr)));
    ("end", PackO (ast_json_timeval (end_ cdr)));
    ("durationsec", PackI (duration cdr));
    ("billsec", PackI (billsec cdr));
    ("disposition", PackS (ast_cdr_disp2str (disposition cdr)));
    ("accountcode", PackS (accountcode cdr));
    ("amaflags", PackS (ast_channel_amaflags2string (amaflags cdr)));
    ("peeraccount", PackS (peeraccount cdr));
    ("linkedid", PackS (linkedid cdr));
    ("sequence", PackI (sequence cdr)) ].

(** [ast_json_object_set(json, k, ast_json_string_create(s))], the result
    code dropped as the source drops it. *)
Definition set_string (json : ast_json) (k : string) (s : string) : ast_json :=
  snd (ast_json_object_set json k (ast_json_string_create s)).

(** [AST_LIST_TRAVERSE(&cdr->varshead, ...)]: each variable becomes a
    member under its own name. *)
Fixpoint set_vars (json : ast_json) (vars : list ast_var_t) : ast_json :=
  match vars with
  | [] => json
  | var_entry :: rest => set_vars (set_string json (name var_entry) (value var_entry)) rest
  end.

(** Lines 331-357: system identification, CDR variables, optional fields. *)
Definition cdr_json_fill (g : cdr_kafka_global_conf) (cdr : ast_cdr) (json : ast_json)
  : ast_json :=
  let json := set_string json "EntityID" ast_eid_default_str in
  let json :=
    if negb (ast_strlen_zero (Some ast_config_AST_SYSTEM_NAME))
    then set_string json "SystemName" ast_config_AST_SYSTEM_NAME
    else json in
  let json := set_vars json (varshead cdr) in
  let json :=
    if negb (loguniqueid g =? 0) then set_string json "uniqueid" (uniqueid cdr)
    else json in
  let json :=
    if negb (loguserfield g =? 0) then set_string json "userfield" (userfield cdr)
    else json in
  json.

(** [strlen]. *)
Definition strlen (s : string) : Z := Z.of_nat (String.length s).

(** *** The CDR handler (cdr_kafka.c, kafka_cdr_log)

    [None] is the state the handler's [ast_assert] excludes: no
    configuration object, or one without its global part.  Reference counts
    of the AO2 objects are not modelled, so [ao2_cleanup] leaves no mark. *)
Definition kafka_cdr_log (cdr : ast_cdr) (w : world) : option (Z * world) :=
  match confs w with
  | Some {| global := Some g |} =>
      let '(producer, w1) :=
        match cached_producer w with
        | Some p => (Some p, w)
        | None =>
            (* Fallback: try to acquire if not yet cached *)
            get_producer (connection g) w
        end in
      match producer with
      | None => Some (-1, ast_log LOG_ERROR "Failed to get a Kafka producer" [] w1)
      | Some producer =>
          match ast_json_pack (cdr_pack_args cdr) with
          | None => Some (-1, w1)
          | Some json =>
              let json := cdr_json_fill g cdr json in
              match ast_json_dump_string json with
              | None =>
                  Some (-1, ast_log LOG_ERROR "Failed to build string from JSON" [] w1)
              | Some str =>
                  let '(res, w2) :=
                    produce producer (topic g)
                      (cdr_get_key_value cdr (Some (key g))) str (strlen str) w1 in
                  if negb (res =? 0) then
                    Some (-1, ast_log LOG_ERROR "Error publishing CDR to Kafka" [] w2)
                  else Some (0, w2)
              end
          end
      end
  | _ => None
  end.

(** *** Notions the statements about the handler use *)

(** The object handed to [ast_json_dump_string] for a record: the packed
    object after lines 331-357, or NULL when [ast_json_pack] fails. *)
Definition cdr_json (g : cdr_kafka_global_conf) (cdr : ast_cdr) : option ast_json :=
  match ast_json_pack (cdr_pack_args cdr) with
  | Some json => Some (cdr_json_fill g cdr json)
  | None => None
  end.

(** The producer the handler works with: the cached one, else what the
    fallback call returns. *)
Definition acquired (g : cdr_kafka_global_conf) (w : world) : option ast_kafka_producer :=
  match cached_producer w with
  | Some p => Some p
  | None => fst (ast_kafka_get_producer (connection g) (kafka_st w))
  end.

(** The state res_kafka is in once the handler holds its producer. *)
Definition acquired_state (g : cdr_kafka_global_conf) (w : world) : kafka :=
  match cached_producer w with
  | Some _ => kafka_st w
  | None => snd (ast_kafka_get_producer (connection g) (kafka_st w))
  end.

(** The strings lines 331-357 hand to [ast_json_string_create] for a
    record: the entity id, the system name when there is one, the value
    of each CDR variable, and the optional fields that are switched on. *)
Definition strings_asked (g : cdr_kafka_global_conf) (cdr : ast_cdr) : list string :=
  [ast_eid_default_str]
  ++ (if negb (ast_strlen_zero (Some ast_config_AST_SYSTEM_NAME))
      then [ast_config_AST_SYSTEM_NAME] else [])
  ++ map value (varshead cdr)
  ++ (if negb (loguniqueid g =? 0) then [uniqueid cdr] else [])
  ++ (if negb (loguserfield g =? 0) then [userfield cdr] else []).

(** The record carries a variable named [n]. *)
Definition has_var (cdr : ast_cdr) (n : string) : bool :=
  existsb (fun var_entry => String.eqb (name var_entry) n) (varshead cdr).

Definition is_produce (e : event) : bool :=
  match e with EvProduce _ _ _ _ _ _ => true | _ => false end.

Definition is_get_producer (e : event) : bool :=
  match e with EvGetProducer _ _ => true | _ => false end.

(** A world that differs from [w] in the state of res_kafka and the trace. *)
Definition moved (w : world) (k : kafka) (t : list event) : world :=
  {| confs := confs w; cached_producer := cached_producer w;
     kafka_st := k; trace := t |}.

(** The handler holds producer [p]: from the cache with nothing done, or
    from the fallback call. *)
Inductive reached (g : cdr_kafka_global_conf) (w : world)
  : ast_kafka_producer -> kafka -> list event -> Prop :=
| FromCache (p : ast_kafka_producer) :
    cached_producer w = Some p ->
    reached g w p (kafka_st w) []
| FromFallback (p : ast_kafka_producer) (k : kafka) :
    cached_producer w = None ->
    ast_kafka_get_producer (connection g) (kafka_st w) = (Some p, k) ->
    reached g w p k [EvGetProducer (connection g) (Some p)].

(** The ways [kafka_cdr_log] ends, each with the events it adds. *)
Inductive outcome (g : cdr_kafka_global_conf) (cdr : ast_cdr) (w : world)
  : Z -> kafka -> list event -> Prop :=
| NoProducer (k : kafka) :
    cached_producer w = None ->
    ast_kafka_get_producer (connection g) (kafka_st w) = (None, k) ->
    outcome g cdr w (-1) k
      [EvGetProducer (connection g) None;
       EvLog LOG_ERROR "Failed to get a Kafka producer" []]
| PackFailed (p : ast_kafka_producer) (k : kafka) (pre : list event) :
    reached g w p k pre ->
    ast_json_pack (cdr_pack_args cdr) = None ->
    outcome g cdr w (-1) k pre
| DumpFailed (p : ast_kafka_producer) (k : kafka) (pre : list event) (json : ast_json) :
    reached g w p k pre ->
    cdr_json g cdr = Some json ->
    ast_json_dump_string json = None ->
    outcome g cdr w (-1) k
      (pre ++ [EvLog LOG_ERROR "Failed to build string from JSON" []])
| ProduceFailed (p : ast_kafka_producer) (k k' : kafka) (pre : list event)
    (json : ast_json) (str : string) (res : Z) :
    reached g w p k pre ->
    cdr_json g cdr = Some json ->
    ast_json_dump_string json = Some str ->
    ast_kafka_produce p (topic g) (cdr_get_key_value cdr (Some (key g))) str
      (strlen str) k = (res, k') ->
    res <> 0 ->
    outcome g cdr w (-1) k'
      (pre ++ [EvProduce p (topic g) (cdr_get_key_value cdr (Some (key g))) str
                 (strlen str) res;
               EvLog LOG_ERROR "Error publishing CDR to Kafka" []])
| Published (p : ast_kafka_producer) (k k' : kafka) (pre : list event)
    (json : ast_json) (str : string) :
    reached g w p k pre ->
    cdr_json g cdr = Some json ->
    ast_json_dump_string json = Some str ->
    ast_kafka_produce p (topic g) (cdr_get_key_value cdr (Some (key g))) str
      (strlen str) k = (0, k') ->
    outcome g cdr w 0 k'
      (pre ++ [EvProduce p (topic g) (cdr_get_key_value cdr (Some (key g))) str
                 (strlen str) 0]).

(** What a later caller can tell of a run: the return code and the state
    res_kafka is left in. *)
Definition verdict (x : option (Z * world)) : option (Z * kafka) :=
  option_map (fun rw => (fst rw, kafka_st (snd rw))) x.

End Module_state.

(** The member names lines 331-357 write as literals. *)
Definition names_asked : list string :=
  [ "EntityID"; "SystemName"; "uniqueid"; "userfield" ].

(** The members the [ast_json_pack] call and the EntityID line create. *)
Definition fixed_members : list string :=
  [ "clid"; "src"; "dst"; "dcontext"; "channel"; "dstchannel"; "lastapp";
    "lastdata"; "start"; "answer"; "end"; "durationsec"; "billsec";
    "disposition"; "accountcode"; "amaflags"; "peeraccount"; "linkedid";
    "sequence"; "EntityID" ].

End CdrKafka.
(** ** A record and a host to run the module on

    [build_test_cdr] is the record of test_cdr_kafka.c.  [stub_host] is a
    small stand-in for res_kafka and the JSON library: connection "main"
    exists, a message is accepted unless its topic is empty, and JSON
    values are created unless the host is told otherwise. *)

Module Fixtures.
Import CString CdrKafka.

Definition dquote : string := String (ascii_of_nat 34) EmptyString.

(** asterisk/cdr.h: [AST_CDR_ANSWERED] is [1 << 3]; asterisk/channel.h:
    [AST_AMA_DOCUMENTATION] is the fourth enumerator. *)
Definition AST_CDR_ANSWERED : Z := 8.
Definition AST_AMA_DOCUMENTATION : Z := 3.

Definition zero_time : timeval := {| tv_sec := 0; tv_usec := 0 |}.

(** test_cdr_kafka.c, [build_test_cdr]. *)
Definition build_test_cdr : ast_cdr := {|
  clid := (dquote ++ "Test User" ++ dquote ++ " <1001>")%string;
  src := "1001";
  dst := "2001";
  dcontext := "from-internal";
  channel := "PJSIP/1001-00000001";
  dstchannel := "PJSIP/2001-00000002";
  lastapp := "Dial";
  lastdata := "PJSIP/2001,30";
  start := zero_time;
  answer := zero_time;
  end_ := zero_time;
  duration := 120;
  billsec := 115;
  disposition := AST_CDR_ANSWERED;
  amaflags := AST_AMA_DOCUMENTATION;
  accountcode := "acct-100";
  peeraccount := "acct-200";
  uniqueid := "1700000000.1";
  linkedid := "1700000000.1";
  tenantid := "tenant-01";
  userfield := "custom-data";
  sequence := 1;
  varshead := []
|}.

Definition with_vars (cdr : ast_cdr) (vars : list ast_var_t) : ast_cdr := {|
  clid := clid cdr; src := src cdr; dst := dst cdr; dcontext := dcontext cdr;
  channel := channel cdr; dstchannel := dstchannel cdr; lastapp := lastapp cdr;
  lastdata := lastdata cdr; start := start cdr; answer := answer cdr;
  end_ := end_ cdr; duration := duration cdr; billsec := billsec cdr;
  disposition := disposition cdr; amaflags := amaflags cdr;
  accountcode := accountcode cdr; peeraccount := peeraccount cdr;
  uniqueid := uniqueid cdr; linkedid := linkedid cdr; tenantid := tenantid cdr;
  userfield := userfield cdr; sequence := sequence cdr; varshead := vars
|}.

(** A plain serialisation, enough to tell two objects apart. *)
Fixpoint dump (j : ast_json) : string :=
  match j with
  | JsonString s => dquote ++ s ++ dquote
  | JsonInteger i => pretty i
  | JsonObject ms =>
      "{" ++
      (fix members (ms : list (string * ast_json)) : string :=
         match ms with
         | [] => ""
         | (k, v) :: rest =>
             dquote ++ k ++ dquote ++ ":" ++ dump v ++
             match rest with [] => "" | _ => "," ++ members rest end
         end) ms ++ "}"
  end%string.

(** Messages the stub broker accepted: topic, key, payload. *)
Definition stub_kafka : Type := list (string * option string * string).

Definition stub_get_producer (conn : string) (k : stub_kafka)
  : option ast_kafka_producer * stub_kafka :=
  (if String.eqb conn "main" then Some 1%positive else None, k).

Definition stub_produce (p : ast_kafka_producer) (tpc : string) (key : option string)
  (payload : string) (len : Z) (k : stub_kafka) : Z * stub_kafka :=
  if String.eqb tpc "" then (-1, k) else (0, (k ++ [(tpc, key, payload)])%list).

(** A string constructor that refuses text holding the byte 0xFF, which no
    UTF-8 text holds. *)
Fixpoint has_byte_ff (s : string) : bool :=
  match s with
  | EmptyString => false
  | String c r => (N_of_ascii c =? 255)%N || has_byte_ff r
  end.

Definition strict_create (s : string) : option ast_json :=
  if has_byte_ff s then None else Some (JsonString s).

(** [create]: the string constructor of the JSON library; [times]: whether
    [ast_json_timeval] yields a value.  A member name is refused when it
    holds the byte 0xFF. *)
Definition stub_host_with (create : string -> option ast_json) (times : bool)
  : Host := {|
  kafka := stub_kafka;
  ast_kafka_get_producer := stub_get_producer;
  ast_kafka_produce := stub_produce;
  utf8_check_string := fun s => negb (has_byte_ff s);
  ast_json_string_create := create;
  ast_json_timeval := fun tv => if times then Some (JsonInteger (tv_sec tv)) else None;
  ast_json_dump_string := fun j => Some (dump j);
  ast_cdr_disp2str := fun d => if d =? 8 then "ANSWERED" else "NO ANSWER";
  ast_channel_amaflags2string := fun f => if f =? 3 then "DOCUMENTATION" else "Unknown";
  ast_eid_default_str := "00:11:22:33:44:55";
  ast_config_AST_SYSTEM_NAME := ""
|}.

Definition stub_host (times : bool) : Host :=
  stub_host_with (fun s => Some (JsonString s)) times.

Definition with_userfield (cdr : ast_cdr) (u : string) : ast_cdr := {|
  clid := clid cdr; src := src cdr; dst := dst cdr; dcontext := dcontext cdr;
  channel := channel cdr; dstchannel := dstchannel cdr; lastapp := lastapp cdr;
  lastdata := lastdata cdr; start := start cdr; answer := answer cdr;
  end_ := end_ cdr; duration := duration cdr; billsec := billsec cdr;
  disposition := disposition cdr; amaflags := amaflags cdr;
  accountcode := accountcode cdr; peeraccount := peeraccount cdr;
  uniqueid := uniqueid cdr; linkedid := linkedid cdr; tenantid := tenantid cdr;
  userfield := u; sequence := sequence cdr; varshead := varshead cdr
|}.

Definition with_duration (cdr : ast_cdr) (d : Z) : ast_cdr := {|
  clid := clid cdr; src := src cdr; dst := dst cdr; dcontext := dcontext cdr;
  channel := channel cdr; dstchannel := dstchannel cdr; lastapp := lastapp cdr;
  lastdata := lastdata cdr; start := start cdr; answer := answer cdr;
  end_ := end_ cdr; duration := d; billsec := billsec cdr;
  disposition := disposition cdr; amaflags := amaflags cdr;
  accountcode := accountcode cdr; peeraccount := peeraccount cdr;
  uniqueid := uniqueid cdr; linkedid := linkedid cdr; tenantid := tenantid cdr;
  userfield := userfield cdr; sequence := sequence cdr; varshead := varshead cdr
|}.

(** The stub host on which every JSON value is created. *)
Definition stub : Host := stub_host true.

(** The module after [load_config], before any producer is cached. *)
Definition stub_world (times : bool) (c : cdr_kafka_conf)
  (cache : option ast_kafka_producer) : @world (stub_host times) :=
  @Build_world (stub_host times) (Some c) cache ([] : stub_kafka) [].

(** A host whose JSON library refuses the strings holding the byte 0xFF. *)
Definition strict_host : Host := stub_host_with strict_create true.

Definition strict_world (c : cdr_kafka_conf)
  (cache : option ast_kafka_producer) : @world strict_host :=
  @Build_world strict_host (Some c) cache ([] : stub_kafka) [].

End Fixtures.

(** ** The Kafka client behind asterisk/kafka.h

    Only the header of res_kafka is at hand.  The definitions of this
    module follow the specification of the client: the connection
    registry (4.1), the admin task queue (4.2, 4.4) and the subscription
    of a consumer (3, 4.3). *)

Module ResKafka.

(** Modelled from the spec: one entry of the named-connection table (6,
    configuration surface): broker list, security options, optional
    consumer group id; the configuration of res_kafka is missing. *)
Record conn_config := {
  brokers : list string;
  security : list (string * string);
  group_id : option string
}.

(** Modelled from the spec: a Connection (3), with its name, what it was
    configured from, and its liveness state; res_kafka's own structure is
    missing. *)
Record connection := {
  conn_name : string;
  conn_from : conn_config;
  live : bool
}.

(** Modelled from the spec: a Producer Handle (3), a reference to a
    Connection of the registry; [struct ast_kafka_producer] is opaque in
    kafka.h. *)
Record producer := { producer_conn : string }.

(** Modelled from the spec: a Subscription (3), the ordered set of topic
    names, the callback reference and the opaque user context; res_kafka's
    own structure is missing. *)
Record subscription := {
  topics : list string;
  callback : N;
  userdata : N
}.

(** Modelled from the spec: a Consumer Handle (3), with its Connection
    and group, the live or absent Subscription, and whether its poll
    thread runs; [struct ast_kafka_consumer] is opaque in kafka.h. *)
Record consumer := {
  consumer_conn : string;
  consumer_group : string;
  active : option subscription;
  polling : bool
}.

(** Modelled from the spec: an AdminTask (3); res_kafka's task structure
    is missing. *)
Record admin_task := {
  task_conn : string;
  task_topic : string;
  task_partitions : Z;
  task_replication : Z;
  task_enqueued : nat
}.

(** Modelled from the spec: the state of the client, that is the
    configuration, the registry of live connections (4.1), the admin task
    queue with whether its processor still accepts tasks (4.4), a clock
    for the enqueue timestamps, and the number of requests sent to brokers
    so far; the globals of res_kafka are missing. *)
Record client := {
  config : gmap string conn_config;
  registry : gmap string connection;
  admin_queue : list admin_task;
  admin_open : bool;
  now : nat;
  requests_sent : nat
}.

Section Broker_client.
(** The broker client library: whether a client instance can be created
    for a configuration, and whether a group join request for a topic list
    is accepted. *)
Variable client_create : string -> conn_config -> bool.
Variable join_request : string -> string -> list string -> bool.

(** Modelled from the spec: the registry lookup of 4.1, which reuses a
    live Connection or creates it on first request; the implementation
    of the registry is missing. *)
Definition connection_for (nm : string) (c : conn_config) (st : client)
  : option client :=
  match registry st !! nm with
  | Some _ => Some st
  | None =>
      if client_create nm c then
        Some {| config := config st;
                registry := <[nm := {| conn_name := nm; conn_from := c; live := true |}]>
                              (registry st);
                admin_queue := admin_queue st; admin_open := admin_open st;
                now := now st; requests_sent := requests_sent st |}
      else None
  end.

(** Modelled from the spec: [get_producer(name)] of 4.1; the function
    [ast_kafka_get_producer] is only declared in kafka.h. *)
Definition ast_kafka_get_producer (nm : string) (st : client)
  : option producer * client :=
  match config st !! nm with
  | None => (None, st)
  | Some c =>
      match connection_for nm c st with
      | Some st' => (Some {| producer_conn := nm |}, st')
      | None => (None, st)
      end
  end.

(** Modelled from the spec: [get_consumer(name)] of 4.1, which fails when
    no configuration entry exists or no group id is configured; the
    function [ast_kafka_get_consumer] is only declared in kafka.h. *)
Definition ast_kafka_get_consumer (nm : string) (st : client)
  : option consumer * client :=
  match config st !! nm with
  | None => (None, st)
  | Some c =>
      match group_id c with
      | None => (None, st)
      | Some gid =>
          match connection_for nm c st with
          | Some st' =>
              (Some {| consumer_conn := nm; consumer_group := gid;
                       active := None; polling := false |}, st')
          | None => (None, st)
          end
      end
  end.

(** Modelled from the spec: the local validation of 4.2, a non-empty
    topic and positive partition count and replication factor; the check
    of res_kafka is missing. *)
Definition valid_topic_args (tpc : string) (num_partitions replication_factor : Z)
  : bool :=
  negb (String.eqb tpc "") && (0 <? num_partitions) && (0 <? replication_factor).

(** Modelled from the spec: [ensure_topic_async] of 4.2, which validates,
    builds the AdminTask and puts it at the end of the queue, or rejects;
    the function [ast_kafka_ensure_topic_async] is only declared in
    kafka.h. *)
Definition ast_kafka_ensure_topic_async (p : producer) (tpc : string)
  (num_partitions replication_factor : Z) (st : client) : Z * client :=
  if negb (valid_topic_args tpc num_partitions replication_factor) then (-1, st)
  else if negb (admin_open st) then (-1, st)
  else
    let task := {| task_conn := producer_conn p; task_topic := tpc;
                   task_partitions := num_partitions;
                   task_replication := replication_factor;
                   task_enqueued := now st |} in
    (0, {| config := config st; registry := registry st;
           admin_queue := admin_queue st ++ [task];
           admin_open := admin_open st; now := now st;
           requests_sent := requests_sent st |}).

(** Modelled from the spec: one turn of the single worker of 4.4, which
    takes the oldest task and sends its create request; the worker of
    res_kafka is missing. *)
Definition admin_worker_step (st : client) : client :=
  match admin_queue st with
  | [] => st
  | _ :: rest =>
      {| config := config st; registry := registry st; admin_queue := rest;
         admin_open := admin_open st; now := S (now st);
         requests_sent := S (requests_sent st) |}
  end.

(** Modelled from the spec: the comma-separated specification of 4.3 cut
    at its commas; the parser of res_kafka is missing. *)
Fixpoint split_commas (s : string) (cur : string) : list string :=
  match s with
  | EmptyString => [cur]
  | String c r =>
      if Ascii.eqb c ","%char then cur :: split_commas r EmptyString
      else split_commas r (cur ++ String c EmptyString)%string
  end.

(** Modelled from the spec: the ordered set of 3, in which a name counts
    once, at its first place; the parser of res_kafka is missing. *)
Fixpoint ordered_set (l : list string) : list string :=
  match l with
  | [] => []
  | x :: r => x :: List.filter (fun y => negb (String.eqb x y)) (ordered_set r)
  end.

(** The specification holds nothing but commas. *)
Fixpoint all_commas (s : string) : bool :=
  match s with
  | EmptyString => true
  | String c r => Ascii.eqb c ","%char && all_commas r
  end.

(** Modelled from the spec: the parse of the topic list of 3 and 4.3, an
    ordered set of the names between the commas, empty names left out;
    the parser of res_kafka is missing. *)
Definition parse_topics (spec : string) : list string :=
  ordered_set (List.filter (fun t => negb (String.eqb t "")) (split_commas spec EmptyString)).

(** Modelled from the spec: [subscribe] of 4.3, which parses the list,
    replaces the Subscription and starts the poll thread if it does not
    run, and fails on an empty parse or a refused join; the function
    [ast_kafka_consumer_subscribe] is only declared in kafka.h. *)
Definition ast_kafka_consumer_subscribe (c : consumer) (tpcs : string)
  (cb ud : N) : Z * consumer :=
  match parse_topics tpcs with
  | [] => (-1, c)
  | ts =>
      if join_request (consumer_conn c) (consumer_group c) ts then
        (0, {| consumer_conn := consumer_conn c; consumer_group := consumer_group c;
               active := Some {| topics := ts; callback := cb; userdata := ud |};
               polling := true |})
      else (-1, c)
  end.

End Broker_client.

End ResKafka.

(** ** cdr_kafka.c: configuration objects and the module's life cycle

    [conf_global_create], [conf_alloc], [setup_kafka], [load_config],
    [load_module], [reload_module] and [unload_module].  The configuration
    framework, the AO2 allocator and the CDR engine are the members of
    [Core]; they work on a state [core] of their own. *)

Module Lifecycle.
Import CString CdrKafka.

(** asterisk/config_options.h, [enum aco_process_status]. *)
Inductive aco_process_status :=
| ACO_PROCESS_OK
| ACO_PROCESS_ERROR
| ACO_PROCESS_UNCHANGED.

(** asterisk/module.h, [enum ast_module_load_result]. *)
Definition AST_MODULE_LOAD_SUCCESS : Z := 0.
Definition AST_MODULE_LOAD_DECLINE : Z := 1.
Definition AST_MODULE_LOAD_FAILURE : Z := -1.

Definition CDR_NAME : string := "Kafka".

(** How an option is stored ([OPT_BOOL_T], [OPT_STRINGFIELD_T]). *)
Inductive aco_option_type := OPT_BOOL_T | OPT_STRINGFIELD_T.

(** One [aco_option_register] call of [load_module]: option name, default
    value, type and flags. *)
Record aco_option := {
  opt_name : string;
  opt_default : string;
  opt_type : aco_option_type;
  opt_flags : Z
}.

(** The five calls of [load_module], in order. *)
Definition registered_options : list aco_option :=
  [ {| opt_name := "loguniqueid"; opt_default := "no";
       opt_type := OPT_BOOL_T; opt_flags := 1 |};
    {| opt_name := "loguserfield"; opt_default := "no";
       opt_type := OPT_BOOL_T; opt_flags := 1 |};
    {| opt_name := "connection"; opt_default := "";
       opt_type := OPT_STRINGFIELD_T; opt_flags := 0 |};
    {| opt_name := "topic"; opt_default := "asterisk_cdr";
       opt_type := OPT_STRINGFIELD_T; opt_flags := 0 |};
    {| opt_name := "key"; opt_default := "";
       opt_type := OPT_STRINGFIELD_T; opt_flags := 0 |} ].

(** The functions of the Asterisk core the life cycle calls.
    [aco_process_config] works on the global holder [confs] that
    [CONFIG_INFO_STANDARD] hands it: it gets the object held and yields the
    object held afterwards. *)
Class Core := {
  core : Type;
  (** asterisk/astobj2.h, asterisk/stringfields.h: whether the allocation
      yields an object, and the result code of the field initialisation *)
  ao2_alloc : core -> bool * core;
  ast_string_field_init : core -> Z * core;
  (** asterisk/config_options.h *)
  aco_set_defaults : cdr_kafka_global_conf -> cdr_kafka_global_conf;
  aco_pending_config : core -> option cdr_kafka_conf;
  aco_info_init : core -> Z * core;
  aco_info_destroy : core -> core;
  aco_option_register : aco_option -> core -> core;
  aco_process_config :
    bool -> option cdr_kafka_conf -> core ->
    aco_process_status * option cdr_kafka_conf * core;
  (** asterisk/cdr.h *)
  ast_cdr_register : string -> string -> core -> Z * core;
  ast_cdr_unregister : string -> core -> Z * core;
  (** [ast_module_info->description] *)
  module_description : string
}.

Section Module_life.
Context {H : Host} {C : Core}.

(** The object [ao2_alloc] returns, zeroed, after [ast_string_field_init]. *)
Definition blank_global : cdr_kafka_global_conf :=
  {| connection := ""; topic := ""; key := ""; loguniqueid := 0; loguserfield := 0 |}.

(** [conf_global_create] (cdr_kafka.c, 132-148). *)
Definition conf_global_create (c : core) : option cdr_kafka_global_conf * core :=
  let '(global, c1) := ao2_alloc c in
  if negb global then (None, c1)
  else
    let '(res, c2) := ast_string_field_init c1 in
    if negb (res =? 0) then (None, c2)
    else (Some (aco_set_defaults blank_global), c2).

(** [conf_alloc] (cdr_kafka.c, 165-181). *)
Definition conf_alloc (c : core) : option cdr_kafka_conf * core :=
  let '(conf, c1) := ao2_alloc c in
  if negb conf then (None, c1)
  else
    let '(global, c2) := conf_global_create c1 in
    match global with
    | None => (None, c2)
    | Some g => (Some {| global := Some g |}, c2)
    end.

(** The module and the core it runs in. *)
Record system := {
  module_st : world;
  core_st : core
}.

Definition on_world (f : world -> world) (s : system) : system :=
  {| module_st := f (module_st s); core_st := core_st s |}.

Definition on_core (c : core) (s : system) : system :=
  {| module_st := module_st s; core_st := c |}.

(** The global holders written: [ao2_global_obj_replace_unref] and
    [ao2_global_obj_release]. *)
Definition set_confs (cf : option cdr_kafka_conf) (w : world) : world :=
  {| confs := cf; cached_producer := cached_producer w;
     kafka_st := kafka_st w; trace := trace w |}.

Definition set_cached_producer (p : option ast_kafka_producer) (w : world) : world :=
  {| confs := confs w; cached_producer := p;
     kafka_st := kafka_st w; trace := trace w |}.

(** [setup_kafka] (cdr_kafka.c, 190-204), the [pre_apply_config] hook. *)
Definition setup_kafka (s : system) : Z * system :=
  match aco_pending_config (core_st s) with
  | None => (0, s)
  | Some {| global := None |} =>
      (-1, on_world (ast_log LOG_ERROR "Invalid cdr_kafka.conf" []) s)
  | Some {| global := Some _ |} => (0, s)
  end.

(** [load_config] (cdr_kafka.c, 384-403). *)
Definition load_config (reload : bool) (s : system) : Z * system :=
  let '(status, held, c1) :=
    aco_process_config reload (confs (module_st s)) (core_st s) in
  let s1 := on_core c1 (on_world (set_confs held) s) in
  match status with
  | ACO_PROCESS_ERROR => (-1, s1)
  | ACO_PROCESS_OK | ACO_PROCESS_UNCHANGED =>
      match confs (module_st s1) with
      | Some {| global := Some _ |} => (0, s1)
      | _ =>
          (-1, on_world
                 (ast_log LOG_ERROR "Error obtaining config from cdr_kafka.conf" []) s1)
      end
  end.

(** [load_module] (cdr_kafka.c, 405-443). *)
Definition load_module (s : system) : Z * system :=
  let '(res, c1) := aco_info_init (core_st s) in
  if negb (res =? 0) then
    let s1 := on_world (ast_log LOG_ERROR "Failed to initialize config" []) (on_core c1 s) in
    (-1, on_core (aco_info_destroy (core_st s1)) s1)
  else
    let c2 := fold_left (fun c o => aco_option_register o c) registered_options c1 in
    let '(res, s2) := load_config false (on_core c2 s) in
    if negb (res =? 0) then
      (AST_MODULE_LOAD_DECLINE,
       on_world (ast_log LOG_WARNING "Configuration failed to load" []) s2)
    else
      let s3 := on_world (fun w => snd (setup_cached_producer w)) s2 in
      let '(res, c4) := ast_cdr_register CDR_NAME module_description (core_st s3) in
      if negb (res =? 0) then
        (AST_MODULE_LOAD_FAILURE,
         on_world (ast_log LOG_ERROR "Could not register CDR backend" [])
           (on_core c4 s3))
      else
        (AST_MODULE_LOAD_SUCCESS,
         on_world (ast_log LOG_NOTICE "CDR Kafka logging enabled" [])
           (on_core c4 s3)).

(** [unload_module] (cdr_kafka.c, 445-455). *)
Definition unload_module (s : system) : Z * system :=
  let s1 := on_world (set_cached_producer None) s in
  let s2 := on_core (aco_info_destroy (core_st s1)) s1 in
  let s3 := on_world (set_confs None) s2 in
  let '(res, c4) := ast_cdr_unregister CDR_NAME (core_st s3) in
  if negb (res =? 0) then (-1, on_core c4 s3) else (0, on_core c4 s3).

(** [reload_module] (cdr_kafka.c, 457-464). *)
Definition reload_module (s : system) : Z * system :=
  let '(res, s1) := load_config true s in
  if res =? 0 then (res, on_world (fun w => snd (setup_cached_producer w)) s1)
  else (res, s1).

End Module_life.

(** *** Notions the further statements use *)

Definition is_log (e : event) : bool :=
  match e with EvLog _ _ _ => true | _ => false end.

(** The value of the last variable named [k]. *)
Fixpoint last_var (vars : list ast_var_t) (k : string) : option string :=
  match vars with
  | [] => None
  | var_entry :: rest =>
      match last_var rest k with
      | Some v => Some v
      | None => if String.eqb (name var_entry) k then Some (value var_entry) else None
      end
  end.

Section Published.
Context {H : Host}.

(** The argument [ast_json_pack] is given for member [k]. *)
Fixpoint assoc_pack (args : list (string * pack_value)) (k : string)
  : option pack_value :=
  match args with
  | [] => None
  | (k', v) :: rest => if String.eqb k' k then Some v else assoc_pack rest k
  end.

(** The value [ast_json_pack] creates for member [k] of a record. *)
Definition packed_value (cdr : ast_cdr) (k : string) : option ast_json :=
  match assoc_pack (cdr_pack_args cdr) k with
  | Some v => pack_create v
  | None => None
  end.

(** The value of member [k] by the last writer of lines 291-357: the
    optional fields, else the last CDR variable of that name when the
    library takes the name, else the system identification, else the
    packed member. *)
Definition published_value (g : cdr_kafka_global_conf) (cdr : ast_cdr) (k : string)
  : option ast_json :=
  if negb (loguserfield g =? 0) && String.eqb "userfield" k
  then ast_json_string_create (userfield cdr)
  else if negb (loguniqueid g =? 0) && String.eqb "uniqueid" k
  then ast_json_string_create (uniqueid cdr)
  else match (if utf8_check_string k then last_var (varshead cdr) k else None) with
       | Some v => ast_json_string_create v
       | None =>
           if negb (ast_strlen_zero (Some ast_config_AST_SYSTEM_NAME))
              && String.eqb "SystemName" k
           then ast_json_string_create ast_config_AST_SYSTEM_NAME
           else if String.eqb "EntityID" k
           then ast_json_string_create ast_eid_default_str
           else packed_value cdr k
       end.

End Published.

End Lifecycle.

(** ** A core to run the life cycle on

    [stub_core file busy]: the configuration file yields [file] (no file
    content is a processing error), allocations succeed, and the CDR engine
    keeps the list of registered backends; it refuses to register a name
    twice and, when [busy], to unregister. *)

Module LifeFixtures.
Import CString CdrKafka Fixtures Lifecycle.

Definition stub_defaults (g : cdr_kafka_global_conf) : cdr_kafka_global_conf :=
  {| connection := ""; topic := "asterisk_cdr"; key := "";
     loguniqueid := 0; loguserfield := 0 |}.

Definition stub_register (nm desc : string) (c : list string) : Z * list string :=
  if existsb (String.eqb nm) c then (-1, c) else (0, nm :: c).

Definition stub_unregister (busy : bool) (nm : string) (c : list string)
  : Z * list string :=
  if busy then (-1, c)
  else (0, List.filter (fun n => negb (String.eqb nm n)) c).

Definition stub_core (file : option cdr_kafka_conf) (busy : bool) : Core := {|
  core := list string;
  ao2_alloc := fun c => (true, c);
  ast_string_field_init := fun c => (0, c);
  aco_set_defaults := stub_defaults;
  aco_pending_config := fun _ => None;
  aco_info_init := fun c => (0, c);
  aco_info_destroy := fun c => c;
  aco_option_register := fun _ c => c;
  aco_process_config := fun _ held c =>
    match file with
    | Some cf => (ACO_PROCESS_OK, Some cf, c)
    | None => (ACO_PROCESS_ERROR, held, c)
    end;
  ast_cdr_register := stub_register;
  ast_cdr_unregister := stub_unregister busy;
  module_description := "Kafka CDR Backend"
|}.

(** The module before [load_module]: both holders empty. *)
Definition fresh_system (file : option cdr_kafka_conf) (busy : bool)
  : @system stub (stub_core file busy) :=
  @Build_system stub (stub_core file busy)
    (@Build_world stub None None ([] : stub_kafka) [])
    ([] : list string).

End LifeFixtures.

(** ** Facts about the C string functions *)

Module CStringFacts.
Import CString.

Lemma code_inj c1 c2 : code c1 = code c2 -> c1 = c2.
Proof.
  unfold code. intros H. apply N2Z.inj in H.
  rewrite <- (ascii_N_embedding c1), <- (ascii_N_embedding c2).
  now rewrite H.
Qed.

Lemma strcasecmp_zero s1 : forall s2,
  strcasecmp s1 s2 = 0 <-> lower s1 = lower s2.
Proof.
  induction s1 as [|c1 r1 IH]; intros [|c2 r2]; simpl.
  - tauto.
  - split; intros H; discriminate H.
  - split; intros H; discriminate H.
  - destruct (Z.eqb_spec (code (tolower c1) - code (tolower c2)) 0) as [E|E].
    + assert (tolower c1 = tolower c2) as -> by (apply code_inj; lia).
      rewrite IH. split; intros H; [now rewrite H | now inversion H].
    + split; intros H; [contradiction|].
      inversion H as [[Hc Hr]]. rewrite Hc in E. lia.
Qed.

Lemma lower_idem s : lower (lower s) = lower s.
Proof.
  induction s as [|c r IH]; simpl; [reflexivity|].
  rewrite IH. f_equal.
  destruct c as [[] [] [] [] [] [] [] []]; reflexivity.
Qed.

End CStringFacts.

(** ** Facts about cdr_kafka.c *)

Module CdrKafkaFacts.
Import CString CStringFacts CdrKafka.
Local Open Scope list_scope.

(** *** Key extraction *)

Lemma strcasecmp_eqb (s n : string) :
  (strcasecmp s n =? 0) = String.eqb (lower s) (lower n).
Proof.
  destruct (Z.eqb_spec (strcasecmp s n) 0) as [E|E];
    destruct (String.eqb_spec (lower s) (lower n)) as [L|L]; try reflexivity.
  - apply strcasecmp_zero in E. contradiction.
  - apply strcasecmp_zero in L. contradiction.
Qed.

(** The chain of comparisons is a lookup of the lowered name in
    [key_fields]. *)
Lemma cdr_get_key_value_lookup (cdr : ast_cdr) (s : string) :
  cdr_get_key_value cdr (Some s) =
  option_map (fun f => f cdr) (assoc_field key_fields (lower s)).
Proof.
  destruct s as [|c r]; [reflexivity|].
  unfold cdr_get_key_value, ast_strlen_zero.
  rewrite !strcasecmp_eqb.
  set (l := lower (String c r)).
  change (lower "linkedid") with "linkedid".
  change (lower "uniqueid") with "uniqueid".
  change (lower "channel") with "channel".
  change (lower "dstchannel") with "dstchannel".
  change (lower "accountcode") with "accountcode".
  change (lower "src") with "src".
  change (lower "dst") with "dst".
  change (lower "dcontext") with "dcontext".
  change (lower "tenantid") with "tenantid".
  cbn [key_fields assoc_field].
  rewrite !(String.eqb_sym l).
  repeat (match goal with
          | |- context [String.eqb ?a l] => destruct (String.eqb a l); [reflexivity|]
          end).
  reflexivity.
Qed.

Lemma assoc_field_None tbl n :
  assoc_field tbl n = None <-> ~ In n (map fst tbl).
Proof.
  induction tbl as [|[n' f] rest IH]; simpl.
  - tauto.
  - destruct (String.eqb_spec n' n) as [E|E].
    + split; [discriminate|]. intros Hn. exfalso. apply Hn. now left.
    + rewrite IH. tauto.
Qed.

Lemma assoc_field_In tbl n f :
  List.NoDup (map fst tbl) -> In (n, f) tbl -> assoc_field tbl n = Some f.
Proof.
  induction tbl as [|[n' f'] rest IH]; simpl; [tauto|].
  intros Hnd [Heq|Hin].
  - inversion Heq; subst. now rewrite String.eqb_refl.
  - apply List.NoDup_cons_iff in Hnd as [Hnotin Hnd].
    destruct (String.eqb_spec n' n) as [E|E].
    + subst. exfalso. apply Hnotin.
      change n with (fst (n, f)). now apply in_map.
    + now apply IH.
Qed.

Lemma key_names_NoDup : List.NoDup key_names.
Proof.
  unfold key_names, key_fields. cbn [map fst].
  repeat (apply List.NoDup_cons; [cbn [In]; intros Hin;
    repeat (destruct Hin as [Hin|Hin]; [discriminate Hin|]); exact Hin|]).
  apply List.NoDup_nil.
Qed.

Lemma key_names_lower n : In n key_names -> lower n = n.
Proof.
  unfold key_names, key_fields. cbn [map fst In].
  intros Hin.
  repeat (destruct Hin as [Hin|Hin]; [subst n; reflexivity|]).
  contradiction.
Qed.

(** C8.  [cdr_get_key_value] returns NULL exactly when the field name is
    NULL, empty, or equal to none of the nine key names under
    [strcasecmp]; for a name that [strcasecmp] finds equal to a key name it
    returns the text of the member that key name designates.  The function
    is a reader of the record: its embedding takes [cdr] and yields only
    the result. *)
Theorem cdr_get_key_value_correct (cdr : ast_cdr) (field_name : option string) :
  (cdr_get_key_value cdr field_name = None <->
     field_name = None \/ field_name = Some "" \/
     exists s, field_name = Some s /\
               forall n, In n key_names -> strcasecmp s n <> 0) /\
  (forall s n f, field_name = Some s -> In (n, f) key_fields ->
     strcasecmp s n = 0 -> cdr_get_key_value cdr field_name = Some (f cdr)).
Proof.
  split.
  - destruct field_name as [s|]; [|split; [now left|reflexivity]].
    rewrite cdr_get_key_value_lookup.
    split.
    + intros Hnone. right. right. exists s. split; [reflexivity|].
      intros n Hn Hz.
      destruct (assoc_field key_fields (lower s)) eqn:E; [discriminate|].
      apply assoc_field_None in E. apply E.
      apply strcasecmp_zero in Hz. rewrite Hz, (key_names_lower n Hn). exact Hn.
    + intros [Hn|[He|[s' [Hs Hall]]]]; [discriminate| |].
      * inversion He. reflexivity.
      * inversion Hs; subst s'.
        destruct (assoc_field key_fields (lower s)) eqn:E; [|reflexivity].
        exfalso.
        assert (Hin : In (lower s) key_names).
        { destruct (in_dec String.string_dec (lower s) key_names) as [Hi|Hi]; [exact Hi|].
          apply assoc_field_None in Hi. fold key_names in Hi. congruence. }
        apply (Hall (lower s) Hin).
        apply strcasecmp_zero. symmetry. apply lower_idem.
  - intros s n f -> Hin Hz.
    rewrite cdr_get_key_value_lookup.
    apply strcasecmp_zero in Hz.
    assert (Hn : In n key_names).
    { change n with (fst (n, f)). now apply in_map. }
    rewrite Hz, (key_names_lower n Hn).
    rewrite (assoc_field_In key_fields n f key_names_NoDup Hin). reflexivity.
Qed.

(** *** Members of a JSON object *)

Lemma members_get_set ms k v k' :
  members_get (members_set ms k v) k' =
  if String.eqb k k' then Some v else members_get ms k'.
Proof.
  induction ms as [|[a va] rest IH]; simpl.
  - reflexivity.
  - destruct (String.eqb_spec a k) as [->|Hak]; simpl.
    + destruct (String.eqb_spec k k'); reflexivity.
    + rewrite IH.
      destruct (String.eqb_spec a k') as [->|Hak']; [|reflexivity].
      destruct (String.eqb_spec k k') as [->|]; [contradiction|reflexivity].
Qed.

Lemma member_of_set ms k v k' :
  member_of (members_set ms k v) k' = String.eqb k k' || member_of ms k'.
Proof.
  unfold member_of. rewrite members_get_set.
  destruct (String.eqb k k'); reflexivity.
Qed.

(** *** The handler *)

Section Handler.
Context {H : Host}.

(** Two worlds built from the same parts, up to the bracketing of the trace. *)
Ltac same_world :=
  unfold ast_log, emit, moved; cbn [confs cached_producer trace kafka_st];
  rewrite <- ?app_assoc; reflexivity.

Lemma moved_self (w : world) : w = moved w (kafka_st w) (trace w ++ []).
Proof. destruct w. unfold moved. cbn. now rewrite app_nil_r. Qed.

(** The producer the handler ends up with, and the world after getting it. *)
Lemma acquire_cases (g : cdr_kafka_global_conf) (w : world) :
  exists po k pre,
    match cached_producer w with
    | Some p => (Some p, w)
    | None => get_producer (connection g) w
    end = (po, moved w k (trace w ++ pre)) /\
    match po with
    | Some p => reached g w p k pre
    | None =>
        cached_producer w = None /\
        ast_kafka_get_producer (connection g) (kafka_st w) = (None, k) /\
        pre = [EvGetProducer (connection g) None]
    end.
Proof.
  destruct (cached_producer w) as [p|] eqn:Hcache.
  - exists (Some p), (kafka_st w), []. split.
    + now rewrite <- moved_self.
    + now constructor.
  - unfold get_producer.
    destruct (ast_kafka_get_producer (connection g) (kafka_st w)) as [po k] eqn:Hget.
    exists po, k, [EvGetProducer (connection g) po]. split; [reflexivity|].
    destruct po as [p|]; [now constructor|auto].
Qed.

Lemma cdr_json_packed (g : cdr_kafka_global_conf) (cdr : ast_cdr) (json : ast_json) :
  ast_json_pack (cdr_pack_args cdr) = Some json ->
  cdr_json g cdr = Some (cdr_json_fill g cdr json).
Proof. intros Hpack. unfold cdr_json. now rewrite Hpack. Qed.

(** With its configuration in place the handler always returns, in one of
    the five ways, and touches neither the configuration nor the cache. *)
Lemma kafka_cdr_log_outcome (cdr : ast_cdr) (w : world) (g : cdr_kafka_global_conf) :
  confs w = Some {| global := Some g |} ->
  exists r k evs,
    kafka_cdr_log cdr w = Some (r, moved w k (trace w ++ evs)) /\
    outcome g cdr w r k evs.
Proof.
  intros Hconf. unfold kafka_cdr_log. rewrite Hconf.
  destruct (acquire_cases g w) as (po & k & pre & -> & Hpo).
  destruct po as [p|].
  - destruct (ast_json_pack (cdr_pack_args cdr)) as [json|] eqn:Hpack.
    + destruct (ast_json_dump_string (cdr_json_fill g cdr json)) as [str|] eqn:Hdump.
      * unfold produce. cbn [kafka_st moved].
        destruct (ast_kafka_produce p (topic g) (cdr_get_key_value cdr (Some (key g)))
                    str (strlen str) k) as [res k'] eqn:Hprod.
        destruct (Z.eqb_spec res 0) as [->|Hres]; cbn [negb].
        -- do 3 eexists. split; [|eapply Published; eauto using cdr_json_packed].
           same_world.
        -- do 3 eexists. split; [|eapply ProduceFailed; eauto using cdr_json_packed].
           same_world.
      * do 3 eexists. split; [|eapply DumpFailed; eauto using cdr_json_packed].
        same_world.
    + do 3 eexists. split; [reflexivity|]. eapply PackFailed; eauto.
  - destruct Hpo as (Hc & Hg & ->).
    do 3 eexists. split; [|apply NoProducer; eassumption].
    same_world.
Qed.

(** The return code and the state res_kafka is left in depend on the
    configuration, the cache and the state of res_kafka only. *)
Lemma kafka_cdr_log_verdict (cdr : ast_cdr) (w : world) (t : list event) :
  verdict (kafka_cdr_log cdr (moved w (kafka_st w) t)) =
  verdict (kafka_cdr_log cdr w).
Proof.
  unfold kafka_cdr_log, get_producer, produce, moved.
  cbn [confs cached_producer kafka_st trace].
  destruct (confs w) as [[[g|]]|]; [|reflexivity|reflexivity].
  destruct (cached_producer w) as [p|].
  - destruct (ast_json_pack (cdr_pack_args cdr)) as [json|]; [|reflexivity].
    destruct (ast_json_dump_string (cdr_json_fill g cdr json)) as [str|]; [|reflexivity].
    cbn [confs cached_producer kafka_st trace].
    destruct (ast_kafka_produce p (topic g) (cdr_get_key_value cdr (Some (key g)))
                str (strlen str) (kafka_st w)) as [res k'].
    destruct (negb (res =? 0)); reflexivity.
  - destruct (ast_kafka_get_producer (connection g) (kafka_st w)) as [[p|] k];
      [|reflexivity].
    destruct (ast_json_pack (cdr_pack_args cdr)) as [json|]; [|reflexivity].
    destruct (ast_json_dump_string (cdr_json_fill g cdr json)) as [str|]; [|reflexivity].
    cbn [kafka_st emit].
    destruct (ast_kafka_produce p (topic g) (cdr_get_key_value cdr (Some (key g)))
                str (strlen str) k) as [res k'].
    destruct (negb (res =? 0)); reflexivity.
Qed.

Lemma reached_events (g : cdr_kafka_global_conf) (w : world)
  (p : ast_kafka_producer) (k : kafka) (pre : list event) :
  reached g w p k pre ->
  forall e, In e pre -> e = EvGetProducer (connection g) (Some p).
Proof.
  intros [p' Hc|p' k' Hc Hg] e Hin; [destruct Hin|].
  destruct Hin as [<-|[]]. reflexivity.
Qed.

Lemma outcome_code (g : cdr_kafka_global_conf) (cdr : ast_cdr) (w : world)
  (r : Z) (k : kafka) (evs : list event) :
  outcome g cdr w r k evs -> r = 0 \/ r = -1.
Proof. intros []; auto. Qed.

Lemma reached_acquired (g : cdr_kafka_global_conf) (w : world)
  (p : ast_kafka_producer) (k : kafka) (pre : list event) :
  reached g w p k pre -> acquired g w = Some p.
Proof.
  intros [q Hc|q k1 Hc Hg]; unfold acquired; rewrite Hc; [reflexivity|].
  now rewrite Hg.
Qed.

Lemma reached_state (g : cdr_kafka_global_conf) (w : world)
  (p : ast_kafka_producer) (k : kafka) (pre : list event) :
  reached g w p k pre -> acquired_state g w = k.
Proof.
  intros [q Hc|q k1 Hc Hg]; unfold acquired_state; rewrite Hc; [reflexivity|].
  now rewrite Hg.
Qed.

(** C7.  With the configuration in place, [kafka_cdr_log] returns for every
    record, with 0 or -1, and leaves configuration and cache as they were.
    When the cache is empty and the fallback call of
    [ast_kafka_get_producer] returns NULL, it returns -1 and its events are
    that call and the error line "Failed to get a Kafka producer".  When it
    holds a producer, the record has its JSON string and
    [ast_kafka_produce], called with them in the state res_kafka is then in,
    returns non-zero, it returns -1 and its events end in that call and the
    error line "Error publishing CDR to Kafka".  Conversely a NULL
    acquisition or a non-zero produce in the trace of a run is followed by
    its error line and the return of -1.  The return code of any later record
    is the one of a run from the same configuration and cache, whatever was
    logged before. *)
Theorem kafka_cdr_log_failure_is_local (cdr : ast_cdr) (w : world)
  (g : cdr_kafka_global_conf) :
  confs w = Some {| global := Some g |} ->
  exists r w' evs,
    kafka_cdr_log cdr w = Some (r, w') /\
    trace w' = trace w ++ evs /\
    (r = 0 \/ r = -1) /\
    confs w' = confs w /\
    cached_producer w' = cached_producer w /\
    (cached_producer w = None ->
     fst (ast_kafka_get_producer (connection g) (kafka_st w)) = None ->
       r = -1 /\
       evs = [EvGetProducer (connection g) None;
              EvLog LOG_ERROR "Failed to get a Kafka producer" []]) /\
    (forall p json str,
       acquired g w = Some p ->
       cdr_json g cdr = Some json ->
       ast_json_dump_string json = Some str ->
       fst (ast_kafka_produce p (topic g) (cdr_get_key_value cdr (Some (key g)))
              str (strlen str) (acquired_state g w)) <> 0 ->
       r = -1 /\
       exists pre,
         evs = pre ++
               [EvProduce p (topic g) (cdr_get_key_value cdr (Some (key g))) str
                  (strlen str)
                  (fst (ast_kafka_produce p (topic g)
                          (cdr_get_key_value cdr (Some (key g)))
                          str (strlen str) (acquired_state g w)));
                EvLog LOG_ERROR "Error publishing CDR to Kafka" []]) /\
    (forall conn, In (EvGetProducer conn None) evs ->
       r = -1 /\
       evs = [EvGetProducer conn None;
              EvLog LOG_ERROR "Failed to get a Kafka producer" []]) /\
    (forall p t k pl len res, In (EvProduce p t k pl len res) evs -> res <> 0 ->
       r = -1 /\
       exists pre,
         evs = pre ++ [EvProduce p t k pl len res;
                       EvLog LOG_ERROR "Error publishing CDR to Kafka" []]) /\
    (forall cdr2 t,
       verdict (kafka_cdr_log cdr2 w') =
       verdict (kafka_cdr_log cdr2 (moved w (kafka_st w') t))).
Proof.
  intros Hconf.
  destruct (kafka_cdr_log_outcome cdr w g Hconf) as (r & k & evs & Hrun & Hout).
  exists r, (moved w k (trace w ++ evs)), evs.
  split; [exact Hrun|]. split; [reflexivity|].
  split; [eapply outcome_code; eauto|].
  split; [reflexivity|]. split; [reflexivity|].
  split; [|split; [|split; [|split]]].
  - intros Hcache Hnull.
    assert (Hnone : acquired g w = None)
      by (unfold acquired; now rewrite Hcache).
    destruct Hout as [k Hc Hg|p k pre Hr Hp|p k pre json Hr Hj Hd
                     |p k k' pre json str res Hr Hj Hd Hprod Hres
                     |p k k' pre json str Hr Hj Hd Hprod];
      [split; reflexivity| | | |];
      rewrite (reached_acquired _ _ _ _ _ Hr) in Hnone; discriminate Hnone.
  - intros p0 json0 str0 Ha Hj0 Hd0 Hne.
    destruct Hout as [k Hc Hg|p k pre Hr Hp|p k pre json Hr Hj Hd
                     |p k k' pre json str res Hr Hj Hd Hprod Hres
                     |p k k' pre json str Hr Hj Hd Hprod].
    + unfold acquired in Ha. rewrite Hc, Hg in Ha. discriminate Ha.
    + unfold cdr_json in Hj0. rewrite Hp in Hj0. discriminate Hj0.
    + rewrite Hj in Hj0. inversion Hj0; subst json0. congruence.
    + rewrite (reached_acquired _ _ _ _ _ Hr) in Ha. inversion Ha; subst p0.
      rewrite Hj in Hj0. inversion Hj0; subst json0.
      rewrite Hd in Hd0. inversion Hd0; subst str0.
      rewrite (reached_state _ _ _ _ _ Hr), Hprod. cbn [fst].
      split; [reflexivity|]. now exists pre.
    + rewrite (reached_acquired _ _ _ _ _ Hr) in Ha. inversion Ha; subst p0.
      rewrite Hj in Hj0. inversion Hj0; subst json0.
      rewrite Hd in Hd0. inversion Hd0; subst str0.
      rewrite (reached_state _ _ _ _ _ Hr), Hprod in Hne. now cbn in Hne.
  - intros conn Hin.
    destruct Hout as [k Hc Hg|p k pre Hr Hp|p k pre json Hr Hj Hd
                     |p k k' pre json str res Hr Hj Hd Hprod Hres
                     |p k k' pre json str Hr Hj Hd Hprod].
    + destruct Hin as [Heq|[Heq|[]]]; [|discriminate Heq].
      inversion Heq; subst conn. auto.
    + apply (reached_events _ _ _ _ _ Hr) in Hin. discriminate Hin.
    + apply in_app_or in Hin as [Hin|[Heq|[]]]; [|discriminate Heq].
      apply (reached_events _ _ _ _ _ Hr) in Hin. discriminate Hin.
    + apply in_app_or in Hin as [Hin|[Heq|[Heq|[]]]]; try discriminate Heq.
      apply (reached_events _ _ _ _ _ Hr) in Hin. discriminate Hin.
    + apply in_app_or in Hin as [Hin|[Heq|[]]]; [|discriminate Heq].
      apply (reached_events _ _ _ _ _ Hr) in Hin. discriminate Hin.
  - intros p0 t0 k0 pl len res0 Hin Hne.
    destruct Hout as [k Hc Hg|p k pre Hr Hp|p k pre json Hr Hj Hd
                     |p k k' pre json str res Hr Hj Hd Hprod Hres
                     |p k k' pre json str Hr Hj Hd Hprod].
    + destruct Hin as [Heq|[Heq|[]]]; discriminate Heq.
    + apply (reached_events _ _ _ _ _ Hr) in Hin. discriminate Hin.
    + apply in_app_or in Hin as [Hin|[Heq|[]]]; [|discriminate Heq].
      apply (reached_events _ _ _ _ _ Hr) in Hin. discriminate Hin.
    + apply in_app_or in Hin as [Hin|[Heq|[Heq|[]]]]; try discriminate Heq.
      * apply (reached_events _ _ _ _ _ Hr) in Hin. discriminate Hin.
      * inversion Heq; subst. split; [reflexivity|]. now exists pre.
    + apply in_app_or in Hin as [Hin|[Heq|[]]].
      * apply (reached_events _ _ _ _ _ Hr) in Hin. discriminate Hin.
      * inversion Heq; subst. contradiction.
  - intros cdr2 t.
    rewrite <- (kafka_cdr_log_verdict cdr2 (moved w k (trace w ++ evs)) t).
    reflexivity.
Qed.

(** *** The object of a record *)

Lemma pack_members_keys args : forall acc ms,
  pack_members args acc = Some ms ->
  forall k, member_of ms k =
            existsb (String.eqb k) (map fst args) || member_of acc k.
Proof.
  induction args as [|[a v] rest IH]; intros acc ms Hpack k; simpl in *.
  - inversion Hpack. reflexivity.
  - destruct (utf8_check_string a); [|discriminate].
    destruct (pack_create v) as [j|]; [|discriminate].
    rewrite (IH _ _ Hpack k), member_of_set.
    rewrite (String.eqb_sym k a).
    destruct (String.eqb a k), (existsb (String.eqb k) (map fst rest)); reflexivity.
Qed.

(** A member name the library refuses leaves the object as it was. *)
Lemma set_string_refused ms k s :
  utf8_check_string k = false ->
  set_string (JsonObject ms) k s = JsonObject ms.
Proof.
  intros Hk. unfold set_string, ast_json_object_set. rewrite Hk.
  destruct (ast_json_string_create s); reflexivity.
Qed.

Lemma set_string_members ms k s :
  utf8_check_string k = true ->
  ast_json_string_create s <> None ->
  exists ms', set_string (JsonObject ms) k s = JsonObject ms' /\
    forall k', member_of ms' k' = String.eqb k k' || member_of ms k'.
Proof.
  intros Hk Hs. unfold set_string, ast_json_object_set. rewrite Hk.
  destruct (ast_json_string_create s) as [v|] eqn:Hv; [|contradiction].
  eexists. split; [reflexivity|]. intros k'. apply member_of_set.
Qed.

Lemma set_vars_members vars : forall ms,
  (forall v, In v vars -> ast_json_string_create (value v) <> None) ->
  exists ms', set_vars (JsonObject ms) vars = JsonObject ms' /\
    forall k', member_of ms' k' =
               existsb (fun var_entry => String.eqb (name var_entry) k') vars
               && utf8_check_string k'
               || member_of ms k'.
Proof.
  induction vars as [|v rest IH]; intros ms Hvals; simpl.
  - exists ms. split; reflexivity.
  - assert (Hrest : forall v', In v' rest ->
              ast_json_string_create (value v') <> None)
      by (intros v' Hv'; apply Hvals; now right).
    destruct (utf8_check_string (name v)) eqn:Hk.
    + destruct (set_string_members ms (name v) (value v) Hk (Hvals v (or_introl eq_refl)))
        as (ms1 & -> & H1).
      destruct (IH ms1 Hrest) as (ms2 & -> & H2).
      exists ms2. split; [reflexivity|]. intros k'.
      rewrite H2, H1.
      destruct (String.eqb_spec (name v) k') as [E|E]; cbn [orb].
      * rewrite <- E, Hk. now rewrite andb_true_r, !orb_true_r.
      * reflexivity.
    + rewrite (set_string_refused ms (name v) (value v) Hk).
      destruct (IH ms Hrest) as (ms2 & -> & H2).
      exists ms2. split; [reflexivity|]. intros k'.
      rewrite H2.
      destruct (String.eqb_spec (name v) k') as [E|E]; cbn [orb]; [|reflexivity].
      rewrite <- E, Hk. now rewrite !andb_false_r.
Qed.

Section Strings_created.
Variable g : cdr_kafka_global_conf.
Variable cdr : ast_cdr.
(** The library accepts the literal member names, and creates the strings
    the handler asks it for for this record. *)
Hypothesis Hnames : forall k, In k names_asked -> utf8_check_string k = true.
Hypothesis Hcreate :
  forall s, In s (strings_asked g cdr) -> ast_json_string_create s <> None.

Lemma asked_eid : ast_json_string_create ast_eid_default_str <> None.
Proof. apply Hcreate. unfold strings_asked. rewrite !in_app_iff. left. now left. Qed.

Lemma asked_system_name :
  negb (ast_strlen_zero (Some ast_config_AST_SYSTEM_NAME)) = true ->
  ast_json_string_create ast_config_AST_SYSTEM_NAME <> None.
Proof.
  intros Hs. apply Hcreate. unfold strings_asked. rewrite Hs, !in_app_iff.
  right. left. now left.
Qed.

Lemma asked_vars v :
  In v (varshead cdr) -> ast_json_string_create (value v) <> None.
Proof.
  intros Hv. apply Hcreate. unfold strings_asked. rewrite !in_app_iff.
  right. right. left. now apply in_map.
Qed.

Lemma asked_uniqueid :
  negb (loguniqueid g =? 0) = true ->
  ast_json_string_create (uniqueid cdr) <> None.
Proof.
  intros Hf. apply Hcreate. unfold strings_asked. rewrite Hf, !in_app_iff.
  right. right. right. left. now left.
Qed.

Lemma asked_userfield :
  negb (loguserfield g =? 0) = true ->
  ast_json_string_create (userfield cdr) <> None.
Proof.
  intros Hf. apply Hcreate. unfold strings_asked. rewrite Hf, !in_app_iff.
  right. right. right. right. now left.
Qed.

Lemma name_EntityID : utf8_check_string "EntityID" = true.
Proof. apply Hnames. now left. Qed.

Lemma name_SystemName : utf8_check_string "SystemName" = true.
Proof. apply Hnames. right. now left. Qed.

Lemma name_uniqueid : utf8_check_string "uniqueid" = true.
Proof. apply Hnames. right. right. now left. Qed.

Lemma name_userfield : utf8_check_string "userfield" = true.
Proof. apply Hnames. right. right. right. now left. Qed.

(** Which names are members of the object handed to the dump. *)
Lemma cdr_json_members (json : ast_json) :
  cdr_json g cdr = Some json ->
  forall k, has_member json k =
    existsb (String.eqb k) fixed_members
    || (negb (ast_strlen_zero (Some ast_config_AST_SYSTEM_NAME))
        && String.eqb "SystemName" k)
    || (has_var cdr k && utf8_check_string k)
    || (negb (loguniqueid g =? 0) && String.eqb "uniqueid" k)
    || (negb (loguserfield g =? 0) && String.eqb "userfield" k).
Proof.
  unfold cdr_json, ast_json_pack.
  destruct (pack_members (cdr_pack_args cdr) []) as [ms0|] eqn:Hpack; [|discriminate].
  intros Hjson k. inversion Hjson as [Hfill]. clear Hjson.
  pose proof (pack_members_keys _ _ _ Hpack) as K0.
  unfold cdr_json_fill.
  destruct (set_string_members ms0 "EntityID" ast_eid_default_str
              name_EntityID asked_eid) as (ms1 & -> & K1).
  assert (exists ms2,
    (if negb (ast_strlen_zero (Some ast_config_AST_SYSTEM_NAME))
     then set_string (JsonObject ms1) "SystemName" ast_config_AST_SYSTEM_NAME
     else JsonObject ms1) = JsonObject ms2 /\
    forall k', member_of ms2 k' =
      (negb (ast_strlen_zero (Some ast_config_AST_SYSTEM_NAME))
       && String.eqb "SystemName" k') || member_of ms1 k') as (ms2 & -> & K2).
  { destruct (negb (ast_strlen_zero (Some ast_config_AST_SYSTEM_NAME))) eqn:Hs.
    - destruct (set_string_members ms1 "SystemName" ast_config_AST_SYSTEM_NAME
                  name_SystemName (asked_system_name Hs))
        as (ms2 & -> & K2). now exists ms2.
    - now exists ms1. }
  destruct (set_vars_members (varshead cdr) ms2 asked_vars) as (ms3 & -> & K3).
  assert (exists ms4,
    (if negb (loguniqueid g =? 0)
     then set_string (JsonObject ms3) "uniqueid" (uniqueid cdr)
     else JsonObject ms3) = JsonObject ms4 /\
    forall k', member_of ms4 k' =
      (negb (loguniqueid g =? 0) && String.eqb "uniqueid" k') || member_of ms3 k')
    as (ms4 & -> & K4).
  { destruct (negb (loguniqueid g =? 0)) eqn:Hf.
    - destruct (set_string_members ms3 "uniqueid" (uniqueid cdr)
                  name_uniqueid (asked_uniqueid Hf)) as (ms4 & -> & K4).
      now exists ms4.
    - now exists ms3. }
  assert (exists ms5,
    (if negb (loguserfield g =? 0)
     then set_string (JsonObject ms4) "userfield" (userfield cdr)
     else JsonObject ms4) = JsonObject ms5 /\
    forall k', member_of ms5 k' =
      (negb (loguserfield g =? 0) && String.eqb "userfield" k') || member_of ms4 k')
    as (ms5 & -> & K5).
  { destruct (negb (loguserfield g =? 0)) eqn:Hf.
    - destruct (set_string_members ms4 "userfield" (userfield cdr)
                  name_userfield (asked_userfield Hf)) as (ms5 & -> & K5).
      now exists ms5.
    - now exists ms4. }
  change (has_member (JsonObject ms5) k) with (member_of ms5 k).
  rewrite K5, K4, K3, K2, K1, K0.
  change (member_of [] k) with false.
  change fixed_members with (map fst (cdr_pack_args cdr) ++ ["EntityID"]).
  rewrite existsb_app. cbn [existsb]. rewrite (String.eqb_sym k "EntityID").
  unfold has_var.
  generalize (existsb (String.eqb k) (map fst (cdr_pack_args cdr))).
  generalize (existsb (fun var_entry => String.eqb (name var_entry) k) (varshead cdr)
              && utf8_check_string k).
  generalize (negb (loguserfield g =? 0) && String.eqb "userfield" k).
  generalize (negb (loguniqueid g =? 0) && String.eqb "uniqueid" k).
  generalize (negb (ast_strlen_zero (Some ast_config_AST_SYSTEM_NAME))
              && String.eqb "SystemName" k).
  generalize (String.eqb "EntityID" k).
  intros [] [] [] [] [] []; reflexivity.
Qed.

End Strings_created.

(** Any run of the handler is one of the five outcomes. *)
Lemma kafka_cdr_log_inv (cdr : ast_cdr) (w w' : world) (g : cdr_kafka_global_conf)
  (r : Z) (evs : list event) :
  confs w = Some {| global := Some g |} ->
  kafka_cdr_log cdr w = Some (r, w') ->
  trace w' = trace w ++ evs ->
  exists k, w' = moved w k (trace w ++ evs) /\ outcome g cdr w r k evs.
Proof.
  intros Hconf Hrun Htrace.
  destruct (kafka_cdr_log_outcome cdr w g Hconf) as (r0 & k0 & evs0 & Hrun0 & Hout).
  rewrite Hrun in Hrun0. inversion Hrun0; subst r0 w'.
  cbn [trace moved] in Htrace. apply app_inv_head in Htrace. subst evs0.
  now exists k0.
Qed.

(** What a call of [ast_kafka_produce] in an outcome was made with. *)
Lemma outcome_produce (g : cdr_kafka_global_conf) (cdr : ast_cdr) (w : world)
  (r : Z) (k : kafka) (evs : list event)
  (p : ast_kafka_producer) (t : string) (ky : option string) (pl : string)
  (len res : Z) :
  outcome g cdr w r k evs ->
  In (EvProduce p t ky pl len res) evs ->
  acquired g w = Some p /\
  t = topic g /\ ky = cdr_get_key_value cdr (Some (key g)) /\ len = strlen pl /\
  (exists json, cdr_json g cdr = Some json /\ ast_json_dump_string json = Some pl) /\
  (r = -1 <-> res <> 0).
Proof.
  assert (Hacq : forall p' k' pre, reached g w p' k' pre -> acquired g w = Some p').
  { intros p' k' pre [q Hc|q k1 Hc Hg]; unfold acquired; rewrite Hc; [reflexivity|].
    now rewrite Hg. }
  intros Hout Hin.
  destruct Hout as [k Hc Hg|q k pre Hr Hp|q k pre json Hr Hj Hd
                   |q k k' pre json str res' Hr Hj Hd Hprod Hres
                   |q k k' pre json str Hr Hj Hd Hprod].
  - destruct Hin as [Heq|[Heq|[]]]; discriminate Heq.
  - apply (reached_events _ _ _ _ _ Hr) in Hin. discriminate Hin.
  - apply in_app_or in Hin as [Hin|[Heq|[]]]; [|discriminate Heq].
    apply (reached_events _ _ _ _ _ Hr) in Hin. discriminate Hin.
  - apply in_app_or in Hin as [Hin|[Heq|[Heq|[]]]]; try discriminate Heq.
    + apply (reached_events _ _ _ _ _ Hr) in Hin. discriminate Hin.
    + inversion Heq; subst. repeat split; eauto.
  - apply in_app_or in Hin as [Hin|[Heq|[]]].
    + apply (reached_events _ _ _ _ _ Hr) in Hin. discriminate Hin.
    + inversion Heq; subst. repeat split; eauto; try discriminate.
      intros Hne. now contradiction Hne.
Qed.

(** C9, as amended.  Let the JSON library accept the literal member names
    of lines 331-357 and create the strings the handler asks it for for
    this record.  The object whose dump [kafka_cdr_log] hands to
    [ast_kafka_produce] has a member "uniqueid" exactly when [loguniqueid]
    is set or the record carries a variable named "uniqueid", a member
    "userfield" exactly when [loguserfield] is set or the record carries a
    variable named "userfield", and every fixed member whatever the
    flags. *)
Theorem published_json_members (cdr : ast_cdr) (w w' : world)
  (g : cdr_kafka_global_conf) (r : Z) (evs : list event)
  (p : ast_kafka_producer) (t : string) (ky : option string) (payload : string)
  (len res : Z) :
  (forall k, In k names_asked -> utf8_check_string k = true) ->
  (forall s, In s (strings_asked g cdr) -> ast_json_string_create s <> None) ->
  confs w = Some {| global := Some g |} ->
  kafka_cdr_log cdr w = Some (r, w') ->
  trace w' = trace w ++ evs ->
  In (EvProduce p t ky payload len res) evs ->
  exists json,
    cdr_json g cdr = Some json /\
    ast_json_dump_string json = Some payload /\
    (has_member json "uniqueid" = true <->
       loguniqueid g <> 0 \/ has_var cdr "uniqueid" = true) /\
    (has_member json "userfield" = true <->
       loguserfield g <> 0 \/ has_var cdr "userfield" = true) /\
    (forall m, In m fixed_members -> has_member json m = true).
Proof.
  intros Hnames Hcreate Hconf Hrun Htrace Hin.
  destruct (kafka_cdr_log_inv cdr w w' g r evs Hconf Hrun Htrace) as (k & _ & Hout).
  destruct (outcome_produce _ _ _ _ _ _ _ _ _ _ _ _ Hout Hin)
    as (_ & _ & _ & _ & (json & Hjson & Hdump) & _).
  exists json. split; [exact Hjson|]. split; [exact Hdump|].
  pose proof (cdr_json_members g cdr Hnames Hcreate json Hjson) as M.
  split; [|split].
  - rewrite (M "uniqueid"), (name_uniqueid Hnames). cbn.
    destruct (Z.eqb_spec (loguniqueid g) 0) as [E|E];
      destruct (has_var cdr "uniqueid"); cbn;
      rewrite ?andb_false_r, ?orb_false_r, ?orb_true_r; cbn; intuition congruence.
  - rewrite (M "userfield"), (name_userfield Hnames). cbn.
    destruct (Z.eqb_spec (loguserfield g) 0) as [E|E];
      destruct (has_var cdr "userfield"); cbn;
      rewrite ?andb_false_r, ?orb_false_r, ?orb_true_r; cbn; intuition congruence.
  - intros m Hm. rewrite (M m).
    assert (existsb (String.eqb m) fixed_members = true) as ->.
    { apply existsb_exists. exists m. split; [exact Hm|apply String.eqb_refl]. }
    reflexivity.
Qed.

Lemma reached_from_cache (g : cdr_kafka_global_conf) (w : world)
  (p q : ast_kafka_producer) (k : kafka) (pre : list event) :
  cached_producer w = Some p -> reached g w q k pre -> q = p /\ pre = [].
Proof.
  intros Hcache [q' Hc|q' k1 Hc Hg]; rewrite Hcache in Hc; [|discriminate].
  inversion Hc. auto.
Qed.

Lemma reached_from_fallback (g : cdr_kafka_global_conf) (w : world)
  (q : ast_kafka_producer) (k : kafka) (pre : list event) :
  cached_producer w = None -> reached g w q k pre ->
  fst (ast_kafka_get_producer (connection g) (kafka_st w)) = Some q /\
  pre = [EvGetProducer (connection g) (Some q)].
Proof.
  intros Hcache [q' Hc|q' k1 Hc Hg]; rewrite Hcache in Hc; [discriminate|].
  now rewrite Hg.
Qed.

(** The events after the acquisition: none is a call of
    [ast_kafka_get_producer], and a call of [ast_kafka_produce] is made
    with the producer held. *)
Lemma outcome_split (g : cdr_kafka_global_conf) (cdr : ast_cdr) (w : world)
  (r : Z) (k : kafka) (evs : list event) :
  outcome g cdr w r k evs ->
  acquired g w = None /\ r = -1 /\
    evs = [EvGetProducer (connection g) None;
           EvLog LOG_ERROR "Failed to get a Kafka producer" []] \/
  exists q k0 pre post,
    reached g w q k0 pre /\ evs = pre ++ post /\
    (forall e, In e post -> is_get_producer e = false) /\
    (forall p' t ky pl len res, In (EvProduce p' t ky pl len res) post -> p' = q).
Proof.
  intros [k1 Hc Hg|q k1 pre Hr Hp|q k1 pre json Hr Hj Hd
         |q k1 k' pre json str res' Hr Hj Hd Hprod Hres
         |q k1 k' pre json str Hr Hj Hd Hprod].
  - left. unfold acquired. rewrite Hc, Hg. auto.
  - right. exists q, k1, pre, []. rewrite app_nil_r.
    repeat split; auto; intros; contradiction.
  - right. do 4 eexists. split; [exact Hr|]. split; [reflexivity|].
    split.
    + intros e [<-|[]]. reflexivity.
    + intros p' t ky pl len res [Heq|[]]. discriminate Heq.
  - right. do 4 eexists. split; [exact Hr|]. split; [reflexivity|].
    split.
    + intros e [<-|[<-|[]]]; reflexivity.
    + intros p' t ky pl len res [Heq|[Heq|[]]]; [|discriminate Heq].
      now inversion Heq.
  - right. do 4 eexists. split; [exact Hr|]. split; [reflexivity|].
    split.
    + intros e [<-|[]]. reflexivity.
    + intros p' t ky pl len res [Heq|[]]. now inversion Heq.
Qed.

(** When the handler returns -1, and when it makes no call of
    [ast_kafka_produce]. *)
Lemma outcome_failure (g : cdr_kafka_global_conf) (cdr : ast_cdr) (w : world)
  (r : Z) (k : kafka) (evs : list event) :
  outcome g cdr w r k evs ->
  (r = -1 <->
     acquired g w = None \/ cdr_json g cdr = None \/
     (exists json, cdr_json g cdr = Some json /\ ast_json_dump_string json = None) \/
     (exists p t ky pl len res, In (EvProduce p t ky pl len res) evs /\ res <> 0)) /\
  ((forall e, In e evs -> is_produce e = false) <->
     acquired g w = None \/ cdr_json g cdr = None \/
     (exists json, cdr_json g cdr = Some json /\ ast_json_dump_string json = None)).
Proof.
  intros Hout.
  assert (Hpre : forall p' k' pre, reached g w p' k' pre ->
            forall e, In e pre -> is_produce e = false).
  { intros p' k' pre Hr e Hin. now rewrite (reached_events _ _ _ _ _ Hr e Hin). }
  destruct Hout as [k1 Hc Hg|q k1 pre Hr Hp|q k1 pre json Hr Hj Hd
                   |q k1 k' pre json str res' Hr Hj Hd Hprod Hres
                   |q k1 k' pre json str Hr Hj Hd Hprod].
  - assert (Ha : acquired g w = None) by (unfold acquired; now rewrite Hc, Hg).
    split; split; auto.
    intros _ e [<-|[<-|[]]]; reflexivity.
  - assert (Hj : cdr_json g cdr = None) by (unfold cdr_json; now rewrite Hp).
    split; split; eauto.
  - split; split; eauto 6.
    intros _ e Hin. apply in_app_or in Hin as [Hin|[<-|[]]]; eauto.
  - split; split.
    + intros _. right. right. right. do 6 eexists. split; [|exact Hres].
      apply in_or_app. right. left. reflexivity.
    + reflexivity.
    + intros Hno. exfalso.
      specialize (Hno (EvProduce q (topic g) (cdr_get_key_value cdr (Some (key g)))
                         str (strlen str) res')).
      discriminate Hno. apply in_or_app. right. now left.
    + intros [Ha|[Hn|(json' & Hj' & Hd')]].
      * rewrite (reached_acquired _ _ _ _ _ Hr) in Ha. discriminate.
      * congruence.
      * rewrite Hj in Hj'. inversion Hj'; subst. congruence.
  - split; split.
    + discriminate.
    + intros [Ha|[Hn|[(json' & Hj' & Hd')|(p0 & t0 & k0 & pl0 & l0 & r0 & Hin & Hne)]]].
      * rewrite (reached_acquired _ _ _ _ _ Hr) in Ha. discriminate.
      * congruence.
      * rewrite Hj in Hj'. inversion Hj'; subst. congruence.
      * apply in_app_or in Hin as [Hin|[Heq|[]]].
        -- apply (reached_events _ _ _ _ _ Hr) in Hin. discriminate Hin.
        -- inversion Heq; subst. contradiction.
    + intros Hno. exfalso.
      specialize (Hno (EvProduce q (topic g) (cdr_get_key_value cdr (Some (key g)))
                         str (strlen str) 0)).
      discriminate Hno. apply in_or_app. right. now left.
    + intros [Ha|[Hn|(json' & Hj' & Hd')]].
      * rewrite (reached_acquired _ _ _ _ _ Hr) in Ha. discriminate.
      * congruence.
      * rewrite Hj in Hj'. inversion Hj'; subst. congruence.
Qed.

(** C10, as amended.  With a producer in the cache the handler makes no
    call of [ast_kafka_get_producer] and produces with the cached one;
    with an empty cache its first act is the fallback call with the
    configured connection name, and it produces with what that call
    returned.  When neither yields a producer it returns -1 and does not
    call [ast_kafka_produce].  It returns -1 exactly when no producer was
    acquired, the JSON object or its string could not be built, or
    [ast_kafka_produce] returned non-zero; it skips the call of
    [ast_kafka_produce] exactly in the first three of these cases. *)
Theorem kafka_cdr_log_producer_choice (cdr : ast_cdr) (w : world)
  (g : cdr_kafka_global_conf) :
  confs w = Some {| global := Some g |} ->
  exists r w' evs,
    kafka_cdr_log cdr w = Some (r, w') /\
    trace w' = trace w ++ evs /\
    (forall p, cached_producer w = Some p ->
       (forall e, In e evs -> is_get_producer e = false) /\
       (forall p' t k pl len res, In (EvProduce p' t k pl len res) evs -> p' = p)) /\
    (cached_producer w = None ->
       exists rest,
         evs = EvGetProducer (connection g)
                 (fst (ast_kafka_get_producer (connection g) (kafka_st w))) :: rest /\
         (forall e, In e rest -> is_get_producer e = false) /\
         (forall p' t k pl len res, In (EvProduce p' t k pl len res) rest ->
            fst (ast_kafka_get_producer (connection g) (kafka_st w)) = Some p')) /\
    (cached_producer w = None ->
     fst (ast_kafka_get_producer (connection g) (kafka_st w)) = None ->
       r = -1 /\ forall e, In e evs -> is_produce e = false) /\
    (r = -1 <->
       acquired g w = None \/ cdr_json g cdr = None \/
       (exists json, cdr_json g cdr = Some json /\ ast_json_dump_string json = None) \/
       (exists p t k pl len res, In (EvProduce p t k pl len res) evs /\ res <> 0)) /\
    ((forall e, In e evs -> is_produce e = false) <->
       acquired g w = None \/ cdr_json g cdr = None \/
       (exists json, cdr_json g cdr = Some json /\ ast_json_dump_string json = None)).
Proof.
  intros Hconf.
  destruct (kafka_cdr_log_outcome cdr w g Hconf) as (r & k & evs & Hrun & Hout).
  exists r, (moved w k (trace w ++ evs)), evs.
  split; [exact Hrun|]. split; [reflexivity|].
  pose proof (outcome_failure _ _ _ _ _ _ Hout) as [Hfail Hskip].
  pose proof (outcome_split _ _ _ _ _ _ Hout) as Hsplit.
  split; [|split; [|split; [|split; [exact Hfail|exact Hskip]]]].
  - intros p Hcache.
    destruct Hsplit as [(Ha & _)|(q & k0 & pre & post & Hr & -> & Hng & Hp)].
    + unfold acquired in Ha. rewrite Hcache in Ha. discriminate.
    + destruct (reached_from_cache _ _ _ _ _ _ Hcache Hr) as [-> ->].
      split; [exact Hng|exact Hp].
  - intros Hcache.
    destruct Hsplit as [(Ha & _ & ->)|(q & k0 & pre & post & Hr & -> & Hng & Hp)].
    + unfold acquired in Ha. rewrite Hcache in Ha. rewrite Ha.
      eexists. split; [reflexivity|]. split.
      * intros e [<-|[]]. reflexivity.
      * intros p' t ky pl len res [Heq|[]]. discriminate Heq.
    + destruct (reached_from_fallback _ _ _ _ _ Hcache Hr) as [Hq ->].
      rewrite Hq. exists post. split; [reflexivity|]. split; [exact Hng|].
      intros p' t ky pl len res Hin. now rewrite (Hp _ _ _ _ _ _ Hin).
  - intros Hcache Hnone.
    assert (Ha : acquired g w = None) by (unfold acquired; now rewrite Hcache).
    split; [apply Hfail; auto|apply Hskip; auto].
Qed.

(** [setup_cached_producer] returns 0 exactly when it put the producer of
    the configured connection into the cache; otherwise the cache keeps
    what it held. *)
Lemma setup_cached_producer_installs (w : world) :
  let '(r, w') := setup_cached_producer w in
  (r = 0 \/ r = -1) /\
  confs w' = confs w /\
  (r = 0 ->
     exists g p, confs w = Some {| global := Some g |} /\
       fst (ast_kafka_get_producer (connection g) (kafka_st w)) = Some p /\
       cached_producer w' = Some p) /\
  (r = -1 -> cached_producer w' = cached_producer w).
Proof.
  unfold setup_cached_producer.
  destruct (confs w) as [[[g|]]|] eqn:Hconf;
    [|cbn; repeat split; auto; discriminate..].
  destruct (ast_strlen_zero (Some (connection g)));
    [cbn; repeat split; auto; discriminate|].
  unfold get_producer.
  destruct (ast_kafka_get_producer (connection g) (kafka_st w)) as [[p|] k] eqn:Hget;
    cbn; repeat split; auto; try discriminate.
  intros _. exists g, p. rewrite Hget. auto.
Qed.

End Handler.

(** *** Runs on the stub host *)

Import Fixtures.

#[local] Existing Instance stub.

Example key_case_insensitive :
  cdr_get_key_value build_test_cdr (Some "LinkedID") = Some "1700000000.1" /\
  cdr_get_key_value build_test_cdr (Some "SRC") = Some "1001" /\
  cdr_get_key_value build_test_cdr (Some "ACCOUNTCODE") = Some "acct-100".
Proof. repeat split. Qed.

Example key_unknown_or_empty :
  cdr_get_key_value build_test_cdr (Some "nonexistent_field") = None /\
  cdr_get_key_value build_test_cdr (Some "") = None /\
  cdr_get_key_value build_test_cdr None = None.
Proof. repeat split. Qed.

(** The lookup of test_cdr_kafka.c, [key_case_insensitive], through the
    theorem. *)
Lemma cdr_get_key_value_correct_witness :
  In ("linkedid", linkedid) key_fields /\
  strcasecmp "LinkedID" "linkedid" = 0 /\
  cdr_get_key_value build_test_cdr (Some "LinkedID") = Some "1700000000.1".
Proof.
  assert (Hin : In ("linkedid", linkedid) key_fields) by (now left).
  assert (Hz : strcasecmp "LinkedID" "linkedid" = 0) by reflexivity.
  split; [exact Hin|]. split; [exact Hz|].
  exact (proj2 (cdr_get_key_value_correct build_test_cdr (Some "LinkedID"))
           "LinkedID" "linkedid" linkedid eq_refl Hin Hz).
Defined.

(** A run in which the connection is unknown to res_kafka. *)
Lemma kafka_cdr_log_failure_is_local_witness :
  let g := {| connection := "nope"; topic := "asterisk_cdr"; key := "linkedid";
              loguniqueid := 0; loguserfield := 0 |} in
  let w := stub_world true {| global := Some g |} None in
  confs w = Some {| global := Some g |} /\
  exists r w' evs,
    kafka_cdr_log build_test_cdr w = Some (r, w') /\
    trace w' = trace w ++ evs /\
    (r = 0 \/ r = -1) /\
    confs w' = confs w /\
    cached_producer w' = cached_producer w /\
    (cached_producer w = None ->
     fst (ast_kafka_get_producer (connection g) (kafka_st w)) = None ->
       r = -1 /\
       evs = [EvGetProducer (connection g) None;
              EvLog LOG_ERROR "Failed to get a Kafka producer" []]) /\
    (forall p json str,
       acquired g w = Some p ->
       cdr_json g build_test_cdr = Some json ->
       ast_json_dump_string json = Some str ->
       fst (ast_kafka_produce p (topic g)
              (cdr_get_key_value build_test_cdr (Some (key g)))
              str (strlen str) (acquired_state g w)) <> 0 ->
       r = -1 /\
       exists pre,
         evs = pre ++
               [EvProduce p (topic g)
                  (cdr_get_key_value build_test_cdr (Some (key g))) str
                  (strlen str)
                  (fst (ast_kafka_produce p (topic g)
                          (cdr_get_key_value build_test_cdr (Some (key g)))
                          str (strlen str) (acquired_state g w)));
                EvLog LOG_ERROR "Error publishing CDR to Kafka" []]) /\
    (forall conn, In (EvGetProducer conn None) evs ->
       r = -1 /\
       evs = [EvGetProducer conn None;
              EvLog LOG_ERROR "Failed to get a Kafka producer" []]) /\
    (forall p t k pl len res, In (EvProduce p t k pl len res) evs -> res <> 0 ->
       r = -1 /\
       exists pre,
         evs = pre ++ [EvProduce p t k pl len res;
                       EvLog LOG_ERROR "Error publishing CDR to Kafka" []]) /\
    (forall cdr2 t,
       verdict (kafka_cdr_log cdr2 w') =
       verdict (kafka_cdr_log cdr2 (moved w (kafka_st w') t))).
Proof.
  intros g w. split; [reflexivity|].
  apply (kafka_cdr_log_failure_is_local (H := stub_host true) build_test_cdr w g).
  reflexivity.
Defined.

(** A record that is published, with [loguserfield] set, by a library that
    refuses strings and names holding the byte 0xFF. *)
Lemma published_json_members_witness :
  let g := {| connection := "main"; topic := "asterisk_cdr"; key := "linkedid";
              loguniqueid := 0; loguserfield := 1 |} in
  let w := strict_world {| global := Some g |} None in
  exists r w' evs p t ky payload len res,
    (forall k, In k names_asked -> @utf8_check_string strict_host k = true) /\
    (forall s, In s (@strings_asked strict_host g build_test_cdr) ->
       @ast_json_string_create strict_host s <> None) /\
    confs w = Some {| global := Some g |} /\
    kafka_cdr_log build_test_cdr w = Some (r, w') /\
    trace w' = trace w ++ evs /\
    In (EvProduce p t ky payload len res) evs /\
    exists json,
      @cdr_json strict_host g build_test_cdr = Some json /\
      @ast_json_dump_string strict_host json = Some payload /\
      (has_member json "uniqueid" = true <->
         loguniqueid g <> 0 \/ has_var build_test_cdr "uniqueid" = true) /\
      (has_member json "userfield" = true <->
         loguserfield g <> 0 \/ has_var build_test_cdr "userfield" = true) /\
      (forall m, In m fixed_members -> has_member json m = true).
Proof.
  intros g w.
  do 9 eexists.
  assert (Hnames : forall k, In k names_asked ->
            @utf8_check_string strict_host k = true).
  { intros k Hk. repeat (destruct Hk as [<-|Hk]; [reflexivity|]). destruct Hk. }
  assert (Hcreate : forall s, In s (@strings_asked strict_host g build_test_cdr) ->
            @ast_json_string_create strict_host s <> None).
  { intros s Hs. vm_compute in Hs.
    repeat (destruct Hs as [<-|Hs]; [discriminate|]). destruct Hs. }
  assert (Hconf : confs w = Some {| global := Some g |}) by reflexivity.
  split; [exact Hnames|]. split; [exact Hcreate|]. split; [exact Hconf|].
  split; [vm_compute; reflexivity|].
  split; [vm_compute; reflexivity|].
  split; [right; left; reflexivity|].
  eapply (published_json_members (H := strict_host) build_test_cdr w _ g); eauto.
  right; left; reflexivity.
Defined.


(** A run with a producer in the cache. *)
Lemma kafka_cdr_log_producer_choice_witness :
  let g := {| connection := "main"; topic := "asterisk_cdr"; key := "linkedid";
              loguniqueid := 0; loguserfield := 0 |} in
  let w := stub_world true {| global := Some g |} (Some 7%positive) in
  confs w = Some {| global := Some g |} /\
  exists r w' evs,
    kafka_cdr_log build_test_cdr w = Some (r, w') /\
    trace w' = trace w ++ evs /\
    (forall p, cached_producer w = Some p ->
       (forall e, In e evs -> is_get_producer e = false) /\
       (forall p' t k pl len res, In (EvProduce p' t k pl len res) evs -> p' = p)) /\
    (cached_producer w = None ->
       exists rest,
         evs = EvGetProducer (connection g)
                 (fst (ast_kafka_get_producer (connection g) (kafka_st w))) :: rest /\
         (forall e, In e rest -> is_get_producer e = false) /\
         (forall p' t k pl len res, In (EvProduce p' t k pl len res) rest ->
            fst (ast_kafka_get_producer (connection g) (kafka_st w)) = Some p')) /\
    (cached_producer w = None ->
     fst (ast_kafka_get_producer (connection g) (kafka_st w)) = None ->
       r = -1 /\ forall e, In e evs -> is_produce e = false) /\
    (r = -1 <->
       acquired g w = None \/ cdr_json g build_test_cdr = None \/
       (exists json, cdr_json g build_test_cdr = Some json /\
                     ast_json_dump_string json = None) \/
       (exists p t k pl len res, In (EvProduce p t k pl len res) evs /\ res <> 0)) /\
    ((forall e, In e evs -> is_produce e = false) <->
       acquired g w = None \/ cdr_json g build_test_cdr = None \/
       (exists json, cdr_json g build_test_cdr = Some json /\
                     ast_json_dump_string json = None)).
Proof.
  intros g w. split; [reflexivity|].
  apply (kafka_cdr_log_producer_choice (H := stub_host true) build_test_cdr w g).
  reflexivity.
Defined.

(** C9, the claim as stated fails: with both flags off, a record that
    carries a variable named "uniqueid" is published with a member
    "uniqueid". *)
Lemma uniqueid_member_without_flag :
  let g := {| connection := "main"; topic := "asterisk_cdr"; key := "linkedid";
              loguniqueid := 0; loguserfield := 0 |} in
  let cdr := with_vars build_test_cdr [{| name := "uniqueid"; value := "x" |}] in
  let w := stub_world true {| global := Some g |} (Some 1%positive) in
  exists json payload w',
    cdr_json g cdr = Some json /\
    ast_json_dump_string json = Some payload /\
    kafka_cdr_log cdr w = Some (0, w') /\
    trace w' = [EvProduce 1%positive "asterisk_cdr" (Some "1700000000.1")
                  payload (strlen payload) 0] /\
    loguniqueid g = 0 /\
    has_member json "uniqueid" = true.
Proof.
  intros g cdr w. do 3 eexists.
  split; [vm_compute; reflexivity|].
  split; [vm_compute; reflexivity|].
  split; [vm_compute; reflexivity|].
  repeat split.
Qed.

(** What the proviso on string creation leaves out: on a host that
    refuses a string, the member is dropped though the flag is set. *)
Example userfield_dropped_when_refused :
  let H := stub_host_with strict_create true in
  let g := {| connection := "main"; topic := "asterisk_cdr"; key := "linkedid";
              loguniqueid := 0; loguserfield := 1 |} in
  let cdr := with_userfield build_test_cdr (String (ascii_of_nat 255) EmptyString) in
  exists json,
    cdr_json (H := H) g cdr = Some json /\
    has_member json "userfield" = false /\
    has_member json "EntityID" = true.
Proof.
  intros H g cdr. eexists.
  split; [vm_compute; reflexivity|]. repeat split.
Qed.

(** C10, the claim as stated fails: with a producer in the cache the
    handler returns -1 and makes no call of [ast_kafka_produce] when
    [ast_json_pack] fails; and it returns -1 with nothing accepted by
    res_kafka when [ast_kafka_produce] itself fails. *)
Lemma error_return_with_cached_producer :
  let g := {| connection := "main"; topic := "asterisk_cdr"; key := "linkedid";
              loguniqueid := 0; loguserfield := 0 |} in
  let g' := {| connection := "main"; topic := ""; key := "linkedid";
               loguniqueid := 0; loguserfield := 0 |} in
  let w1 := stub_world false {| global := Some g |} (Some 1%positive) in
  let w2 := stub_world true {| global := Some g' |} (Some 1%positive) in
  (cached_producer w1 = Some 1%positive /\
   exists w', kafka_cdr_log build_test_cdr w1 = Some (-1, w') /\
              trace w' = [] /\ kafka_st w' = kafka_st w1) /\
  (cached_producer w2 = Some 1%positive /\
   exists w' payload len,
     kafka_cdr_log build_test_cdr w2 = Some (-1, w') /\
     trace w' = [EvProduce 1%positive "" (Some "1700000000.1") payload
                   len (-1);
                 EvLog LOG_ERROR "Error publishing CDR to Kafka" []] /\
     kafka_st w' = kafka_st w2).
Proof.
  intros g g' w1 w2. split.
  - split; [reflexivity|]. eexists.
    split; [vm_compute; reflexivity|]. split; reflexivity.
  - split; [reflexivity|]. do 3 eexists.
    split; [vm_compute; reflexivity|]. split; reflexivity.
Qed.

End CdrKafkaFacts.
(** ** Facts about the client model *)

Module ResKafkaFacts.
Import ResKafka.
Local Open Scope list_scope.

(** *** Topic administration *)

Lemma valid_topic_args_iff (tpc : string) (np rf : Z) :
  valid_topic_args tpc np rf = true <-> tpc <> "" /\ 0 < np /\ 0 < rf.
Proof.
  unfold valid_topic_args.
  destruct (String.eqb_spec tpc "") as [E|E];
    destruct (Z.ltb_spec 0 np), (Z.ltb_spec 0 rf); cbn;
    split; try discriminate; try tauto; intros (? & ? & ?); try contradiction; lia.
Qed.

(** C1.  [ast_kafka_ensure_topic_async] rejects an empty topic, a
    non-positive partition count or a non-positive replication factor with
    -1 and leaves the client as it was; with valid arguments and a queue
    that accepts tasks it returns 0 with the task at the end of the queue
    and no request sent; it returns -1 only for invalid arguments or a
    queue that does not accept the task, and then nothing is enqueued. *)
Theorem ensure_topic_async_validates (p : producer) (tpc : string)
  (num_partitions replication_factor : Z) (st : client) :
  let invalid := tpc = "" \/ num_partitions <= 0 \/ replication_factor <= 0 in
  let task := {| task_conn := producer_conn p; task_topic := tpc;
                 task_partitions := num_partitions;
                 task_replication := replication_factor;
                 task_enqueued := now st |} in
  let r := fst (ast_kafka_ensure_topic_async p tpc num_partitions replication_factor st) in
  let st' := snd (ast_kafka_ensure_topic_async p tpc num_partitions replication_factor st) in
  (invalid -> r = -1 /\ st' = st) /\
  (~ invalid -> admin_open st = true ->
     r = 0 /\ admin_queue st' = admin_queue st ++ [task] /\
     requests_sent st' = requests_sent st) /\
  (r = -1 <-> invalid \/ admin_open st = false) /\
  (r = -1 -> st' = st) /\
  (r = 0 \/ r = -1).
Proof.
  cbv zeta. unfold ast_kafka_ensure_topic_async.
  pose proof (valid_topic_args_iff tpc num_partitions replication_factor) as V.
  destruct (valid_topic_args tpc num_partitions replication_factor); cbn [negb].
  - assert (Hv : tpc <> "" /\ 0 < num_partitions /\ 0 < replication_factor)
      by (now apply V).
    assert (Hnot : ~ (tpc = "" \/ num_partitions <= 0 \/ replication_factor <= 0)).
    { destruct Hv as (Ht & Hp & Hr). intros [E|[E|E]]; [contradiction|lia|lia]. }
    destruct (admin_open st) eqn:Hopen; cbn [negb fst snd].
    + split; [intros Hi; contradiction|].
      split; [intros _ _; repeat split|].
      split; [split; [discriminate|intros [Hi|Ho]; [contradiction|discriminate]]|].
      split; [discriminate|now left].
    + split; [intros _; split; reflexivity|].
      split; [intros _ Ho; discriminate|].
      split; [split; auto|].
      split; [reflexivity|now right].
  - assert (Hi : tpc = "" \/ num_partitions <= 0 \/ replication_factor <= 0).
    { destruct (String.eqb_spec tpc ""); [now left|].
      destruct (Z.ltb_spec 0 num_partitions); [|right; left; lia].
      destruct (Z.ltb_spec 0 replication_factor); [|right; right; lia].
      assert (false = true) by (apply V; auto). discriminate. }
    cbn [fst snd].
    split; [intros _; split; reflexivity|].
    split; [intros Hn; contradiction|].
    split; [split; auto|].
    split; [reflexivity|now right].
Qed.

(** A valid request on an open queue, through the theorem. *)
Lemma ensure_topic_async_validates_witness :
  let p := {| producer_conn := "main" |} in
  let st := {| config := ∅; registry := ∅; admin_queue := []; admin_open := true;
               now := 5%nat; requests_sent := 0%nat |} in
  ~ ("orders" = "" \/ 3 <= 0 \/ 1 <= 0) /\
  admin_open st = true /\
  fst (ast_kafka_ensure_topic_async p "orders" 3 1 st) = 0 /\
  admin_queue (snd (ast_kafka_ensure_topic_async p "orders" 3 1 st)) =
    admin_queue st ++ [{| task_conn := "main"; task_topic := "orders";
                          task_partitions := 3; task_replication := 1;
                          task_enqueued := 5%nat |}] /\
  requests_sent (snd (ast_kafka_ensure_topic_async p "orders" 3 1 st)) =
    requests_sent st.
Proof.
  intros p st.
  assert (Hv : ~ ("orders" = "" \/ 3 <= 0 \/ 1 <= 0)).
  { intros [E|[E|E]]; [discriminate E|lia|lia]. }
  assert (Ho : admin_open st = true) by reflexivity.
  split; [exact Hv|]. split; [exact Ho|].
  exact (proj1 (proj2 (ensure_topic_async_validates p "orders" 3 1 st)) Hv Ho).
Defined.

Example ensure_topic_async_runs :
  let p := {| producer_conn := "main" |} in
  let st := {| config := ∅; registry := ∅; admin_queue := []; admin_open := true;
               now := 5%nat; requests_sent := 0%nat |} in
  fst (ast_kafka_ensure_topic_async p "" 1 1 st) = -1 /\
  fst (ast_kafka_ensure_topic_async p "orders" 0 1 st) = -1 /\
  fst (ast_kafka_ensure_topic_async p "orders" 3 (-1) st) = -1 /\
  ast_kafka_ensure_topic_async p "orders" 3 1 st =
    (0, {| config := ∅; registry := ∅;
           admin_queue := [{| task_conn := "main"; task_topic := "orders";
                              task_partitions := 3; task_replication := 1;
                              task_enqueued := 5%nat |}];
           admin_open := true; now := 5%nat; requests_sent := 0%nat |}).
Proof. repeat split. Qed.

(** The call sends nothing; the request leaves with the worker's turn, and
    the queue is served from its head. *)
Lemma worker_serves_head (p : producer) (tpc : string) (np rf : Z) (st : client) :
  admin_queue st = [] ->
  fst (ast_kafka_ensure_topic_async p tpc np rf st) = 0 ->
  let st' := admin_worker_step (snd (ast_kafka_ensure_topic_async p tpc np rf st)) in
  admin_queue st' = [] /\ requests_sent st' = S (requests_sent st).
Proof.
  intros Hq. unfold ast_kafka_ensure_topic_async.
  destruct (negb (valid_topic_args tpc np rf)); [discriminate|].
  destruct (negb (admin_open st)); [discriminate|].
  intros _. unfold admin_worker_step. cbn. rewrite Hq. cbn. auto.
Qed.

(** *** The registry *)

(** C5.  For a name with no configuration entry, or with an entry that
    has no group id, [ast_kafka_get_consumer] returns NULL and the client,
    its registry of connections included, is as it was. *)
Theorem get_consumer_needs_group_id (client_create : string -> conn_config -> bool)
  (nm : string) (st : client) :
  config st !! nm = None \/
  (exists c, config st !! nm = Some c /\ group_id c = None) ->
  ast_kafka_get_consumer client_create nm st = (None, st).
Proof.
  unfold ast_kafka_get_consumer.
  intros [Hnone|(c & Hc & Hg)].
  - now rewrite Hnone.
  - now rewrite Hc, Hg.
Qed.

(** A configured producer-only connection: a producer is handed out and
    the connection is created, a consumer is refused. *)
Lemma get_consumer_needs_group_id_witness :
  let c := {| brokers := ["broker:9092"]; security := []; group_id := None |} in
  let st := {| config := {[ "main" := c ]}; registry := ∅; admin_queue := [];
               admin_open := true; now := 0%nat; requests_sent := 0%nat |} in
  (config st !! "main" = None \/
   (exists c', config st !! "main" = Some c' /\ group_id c' = None)) /\
  ast_kafka_get_consumer (fun _ _ => true) "main" st = (None, st).
Proof.
  intros c st.
  assert (Hc : config st !! "main" = None \/
               (exists c', config st !! "main" = Some c' /\ group_id c' = None)).
  { right. exists c. split; [apply lookup_singleton_eq|reflexivity]. }
  split; [exact Hc|].
  exact (get_consumer_needs_group_id (fun _ _ => true) "main" st Hc).
Defined.

(** With a group id configured and a client that can be created, the
    consumer is handed out and its connection enters the registry. *)
Lemma get_consumer_with_group_id (client_create : string -> conn_config -> bool)
  (nm : string) (st : client) (c : conn_config) (gid : string) :
  config st !! nm = Some c -> group_id c = Some gid ->
  registry st !! nm = None -> client_create nm c = true ->
  exists st',
    ast_kafka_get_consumer client_create nm st =
      (Some {| consumer_conn := nm; consumer_group := gid;
               active := None; polling := false |}, st') /\
    registry st' !! nm = Some {| conn_name := nm; conn_from := c; live := true |}.
Proof.
  intros Hc Hg Hr Hk. unfold ast_kafka_get_consumer, connection_for.
  rewrite Hc, Hg, Hr, Hk. eexists. split; [reflexivity|].
  cbn. apply lookup_insert_eq.
Qed.

(** *** Subscription *)

Lemma append_not_empty (a : string) (c : ascii) :
  (a ++ String c EmptyString)%string <> EmptyString.
Proof. destruct a; discriminate. Qed.

Lemma split_commas_all_empty (s : string) : forall cur,
  (forall t, In t (split_commas s cur) -> t = EmptyString) <->
  cur = EmptyString /\ all_commas s = true.
Proof.
  induction s as [|c r IH]; intros cur; simpl.
  - split.
    + intros Hall. split; [apply Hall; now left|reflexivity].
    + intros [-> _] t [<-|[]]. reflexivity.
  - destruct (Ascii.eqb c ","%char) eqn:Ec; simpl.
    + split.
      * intros Hall. split; [apply Hall; now left|].
        apply (IH EmptyString). intros t Ht. apply Hall. now right.
      * intros [-> Hr] t [<-|Ht]; [reflexivity|].
        apply (proj2 (IH EmptyString)); auto.
    + rewrite IH. split.
      * intros [He _]. now apply append_not_empty in He.
      * intros [_ Hf]. discriminate Hf.
Qed.

Lemma filter_nil_iff {A} (f : A -> bool) (l : list A) :
  List.filter f l = [] <-> forall x, In x l -> f x = false.
Proof.
  induction l as [|a l IH]; simpl.
  - split; [intros _ x []|reflexivity].
  - destruct (f a) eqn:Fa.
    + split; [discriminate|]. intros Hall.
      rewrite (Hall a) in Fa by now left. discriminate.
    + rewrite IH. split.
      * intros Hall x [<-|Hx]; auto.
      * intros Hall x Hx. apply Hall. now right.
Qed.

Lemma ordered_set_nil (l : list string) : ordered_set l = [] <-> l = [].
Proof. destruct l; simpl; split; intros E; try reflexivity; discriminate E. Qed.

(** A topic list parses to the empty set exactly when it holds nothing
    but commas. *)
Lemma parse_topics_empty (tpcs : string) :
  parse_topics tpcs = [] <-> all_commas tpcs = true.
Proof.
  unfold parse_topics. rewrite ordered_set_nil, filter_nil_iff.
  transitivity (forall t, In t (split_commas tpcs EmptyString) -> t = EmptyString).
  - split; intros Hall t Ht.
    + specialize (Hall t Ht). now destruct (String.eqb_spec t "").
    + rewrite (Hall t Ht). reflexivity.
  - rewrite split_commas_all_empty. split; [now intros [_ E]|now split].
Qed.

(** C6.  [ast_kafka_consumer_subscribe] returns -1 exactly when the topic
    list parses to the empty set or the join request for the parsed
    topics is refused; on an empty parse it returns -1 and the consumer
    keeps what it had; otherwise it returns 0 with the new Subscription in
    place and the poll thread running. *)
Theorem subscribe_fails_iff (join_request : string -> string -> list string -> bool)
  (c : consumer) (tpcs : string) (cb ud : N) :
  let r := fst (ast_kafka_consumer_subscribe join_request c tpcs cb ud) in
  let c' := snd (ast_kafka_consumer_subscribe join_request c tpcs cb ud) in
  let refused :=
    join_request (consumer_conn c) (consumer_group c) (parse_topics tpcs) = false in
  (r = -1 <-> parse_topics tpcs = [] \/ refused) /\
  (parse_topics tpcs = [] -> r = -1 /\ c' = c) /\
  (r = -1 \/
   r = 0 /\
   active c' = Some {| topics := parse_topics tpcs; callback := cb; userdata := ud |} /\
   polling c' = true).
Proof.
  cbv zeta. unfold ast_kafka_consumer_subscribe.
  destruct (parse_topics tpcs) as [|t ts] eqn:Hp.
  - cbn. split; [split; auto|]. split; auto.
  - destruct (join_request (consumer_conn c) (consumer_group c) (t :: ts)) eqn:Hj; cbn.
    + split; [split; [discriminate|intros [E|E]; discriminate E]|].
      split; [discriminate|]. right. auto.
    + split; [split; auto|]. split; [discriminate|]. now left.
Qed.

(** A topic list of commas only, through the theorem. *)
Lemma subscribe_fails_iff_witness :
  let c := {| consumer_conn := "main"; consumer_group := "billing";
              active := None; polling := false |} in
  parse_topics ",," = [] /\
  fst (ast_kafka_consumer_subscribe (fun _ _ _ => true) c ",," 1%N 2%N) = -1 /\
  snd (ast_kafka_consumer_subscribe (fun _ _ _ => true) c ",," 1%N 2%N) = c.
Proof.
  intros c.
  assert (Hp : parse_topics ",," = []) by reflexivity.
  split; [exact Hp|].
  exact (proj1 (proj2 (subscribe_fails_iff (fun _ _ _ => true) c ",," 1%N 2%N)) Hp).
Defined.

Example subscribe_replaces :
  let c := {| consumer_conn := "main"; consumer_group := "billing";
              active := Some {| topics := ["a"; "b"; "c"]; callback := 1%N;
                                userdata := 0%N |};
              polling := true |} in
  ast_kafka_consumer_subscribe (fun _ _ _ => true) c "d" 7%N 0%N =
    (0, {| consumer_conn := "main"; consumer_group := "billing";
           active := Some {| topics := ["d"]; callback := 7%N; userdata := 0%N |};
           polling := true |}) /\
  ast_kafka_consumer_subscribe (fun _ _ _ => false) c "d" 7%N 0%N = (-1, c).
Proof. split; reflexivity. Qed.

Example parse_topics_runs :
  parse_topics "a,b,c" = ["a"; "b"; "c"] /\
  parse_topics "a,,b,a" = ["a"; "b"] /\
  parse_topics ",," = [] /\
  parse_topics "" = [].
Proof. repeat split. Qed.

End ResKafkaFacts.
(** ** Further facts about cdr_kafka.c *)

Module CdrKafkaMore.
Import CString CStringFacts CdrKafka CdrKafkaFacts Lifecycle.
Local Open Scope list_scope.

(** *** Key extraction *)

Lemma cdr_get_key_value_none (cdr : ast_cdr) (s : string) :
  cdr_get_key_value cdr (Some s) = None <-> ~ In (lower s) key_names.
Proof.
  rewrite cdr_get_key_value_lookup.
  rewrite <- (assoc_field_None key_fields (lower s)).
  destruct (assoc_field key_fields (lower s)); cbn; split; congruence.
Qed.

(** X1.  Two field names that [strcasecmp] finds equal select the same
    value from every record. *)
Theorem cdr_get_key_value_case (cdr : ast_cdr) (s1 s2 : string) :
  strcasecmp s1 s2 = 0 ->
  cdr_get_key_value cdr (Some s1) = cdr_get_key_value cdr (Some s2).
Proof.
  intros Hz. apply strcasecmp_zero in Hz.
  rewrite !cdr_get_key_value_lookup. now rewrite Hz.
Qed.

(** *** The handler *)

Section Handler_more.
Context {H : Host}.

Lemma reached_no_produce (g : cdr_kafka_global_conf) (w : world)
  (p : ast_kafka_producer) (k : kafka) (pre : list event) :
  reached g w p k pre ->
  List.filter is_produce pre = [] /\ List.filter is_log pre = [].
Proof. intros [q Hc|q k1 Hc Hg]; split; reflexivity. Qed.

(** X2.  A call of [ast_kafka_produce] by the handler is made with the
    producer acquired, the configured topic, the key that
    [cdr_get_key_value] extracts for the configured key field, the dump of
    the record's JSON object and the [strlen] of that dump; there is at
    most one such call per record, and the handler returns 0 exactly when
    that call returned 0. *)
Theorem kafka_cdr_log_produce_call (cdr : ast_cdr) (w w' : world)
  (g : cdr_kafka_global_conf) (r : Z) (evs : list event) :
  confs w = Some {| global := Some g |} ->
  kafka_cdr_log cdr w = Some (r, w') ->
  trace w' = trace w ++ evs ->
  (forall p t ky pl len res, In (EvProduce p t ky pl len res) evs ->
     acquired g w = Some p /\
     t = topic g /\
     ky = cdr_get_key_value cdr (Some (key g)) /\
     len = strlen pl /\
     (exists json, cdr_json g cdr = Some json /\ ast_json_dump_string json = Some pl) /\
     (r = 0 <-> res = 0)) /\
  (length (List.filter is_produce evs) <= 1)%nat /\
  (r = 0 <->
   exists pre p pl, evs = pre ++ [EvProduce p (topic g)
                                   (cdr_get_key_value cdr (Some (key g)))
                                   pl (strlen pl) 0]).
Proof.
  intros Hconf Hrun Htrace.
  destruct (kafka_cdr_log_inv cdr w w' g r evs Hconf Hrun Htrace) as (k & _ & Hout).
  split; [|split].
  - intros p t ky pl len res Hin.
    destruct (outcome_produce _ _ _ _ _ _ _ _ _ _ _ _ Hout Hin)
      as (Ha & Ht & Hk & Hl & Hj & Hr).
    repeat split; auto.
    + intros ->. destruct (Z.eq_dec res 0) as [E|E]; [exact E|].
      apply Hr in E. discriminate E.
    + intros ->. destruct (outcome_code _ _ _ _ _ _ Hout) as [E|E]; [exact E|].
      apply Hr in E. contradiction.
  - destruct Hout as [k1 Hc Hg|q k1 pre Hr Hp|q k1 pre json Hr Hj Hd
                     |q k1 k' pre json str res' Hr Hj Hd Hprod Hres
                     |q k1 k' pre json str Hr Hj Hd Hprod];
      try (rewrite List.filter_app, (proj1 (reached_no_produce _ _ _ _ _ Hr)));
      try (rewrite (proj1 (reached_no_produce _ _ _ _ _ Hr)));
      cbn; lia.
  - destruct Hout as [k1 Hc Hg|q k1 pre Hr Hp|q k1 pre json Hr Hj Hd
                     |q k1 k' pre json str res' Hr Hj Hd Hprod Hres
                     |q k1 k' pre json str Hr Hj Hd Hprod].
    + split; [discriminate|]. intros (pre & p & pl & E). exfalso.
      change [EvGetProducer (connection g) None;
              EvLog LOG_ERROR "Failed to get a Kafka producer" []]
        with ([EvGetProducer (connection g) None] ++
              [EvLog LOG_ERROR "Failed to get a Kafka producer" []]) in E.
      apply app_inj_tail in E as [_ E]. discriminate E.
    + split; [discriminate|]. intros (pre' & p & pl & E). exfalso.
      assert (Hin : In (EvProduce p (topic g) (cdr_get_key_value cdr (Some (key g)))
                          pl (strlen pl) 0) pre).
      { rewrite E. apply in_or_app. right. now left. }
      apply (reached_events _ _ _ _ _ Hr) in Hin. discriminate Hin.
    + split; [discriminate|]. intros (pre' & p & pl & E). exfalso.
      apply app_inj_tail in E as [_ E]. discriminate E.
    + split; [discriminate|]. intros (pre' & p & pl & E). exfalso.
      change (pre ++ [EvProduce q (topic g) (cdr_get_key_value cdr (Some (key g)))
                        str (strlen str) res';
                      EvLog LOG_ERROR "Error publishing CDR to Kafka" []])
        with (pre ++ [EvProduce q (topic g) (cdr_get_key_value cdr (Some (key g)))
                        str (strlen str) res'] ++
                     [EvLog LOG_ERROR "Error publishing CDR to Kafka" []]) in E.
      rewrite app_assoc in E. apply app_inj_tail in E as [_ E]. discriminate E.
    + split; [|reflexivity]. intros _. now exists pre, q, str.
Qed.

(** X3.  The handler writes at most one log line per record, always at
    LOG_ERROR and only when it returns -1.  When [ast_json_pack] fails it
    returns -1 and writes none. *)
Theorem kafka_cdr_log_logging (cdr : ast_cdr) (w w' : world)
  (g : cdr_kafka_global_conf) (r : Z) (evs : list event) :
  confs w = Some {| global := Some g |} ->
  kafka_cdr_log cdr w = Some (r, w') ->
  trace w' = trace w ++ evs ->
  (length (List.filter is_log evs) <= 1)%nat /\
  (forall lvl fmt args, In (EvLog lvl fmt args) evs ->
     lvl = LOG_ERROR /\ args = [] /\ r = -1) /\
  (acquired g w <> None -> ast_json_pack (cdr_pack_args cdr) = None ->
     r = -1 /\ List.filter is_log evs = []).
Proof.
  intros Hconf Hrun Htrace.
  destruct (kafka_cdr_log_inv cdr w w' g r evs Hconf Hrun Htrace) as (k & _ & Hout).
  assert (Hlog : forall p' k' pre lvl fmt args, reached g w p' k' pre ->
            ~ In (EvLog lvl fmt args) pre).
  { intros p' k' pre lvl fmt args Hr Hin.
    apply (reached_events _ _ _ _ _ Hr) in Hin. discriminate Hin. }
  destruct Hout as [k1 Hc Hg|q k1 pre Hr Hp|q k1 pre json Hr Hj Hd
                   |q k1 k' pre json str res' Hr Hj Hd Hprod Hres
                   |q k1 k' pre json str Hr Hj Hd Hprod].
  - split; [cbn; lia|]. split.
    + intros lvl fmt args [E|[E|[]]]; [discriminate E|]. now inversion E.
    + intros Ha. exfalso. apply Ha. unfold acquired. now rewrite Hc, Hg.
  - split; [rewrite (proj2 (reached_no_produce _ _ _ _ _ Hr)); cbn; lia|]. split.
    + intros lvl fmt args Hin. now apply Hlog with (1 := Hr) in Hin.
    + intros _ _. split; [reflexivity|]. apply (reached_no_produce _ _ _ _ _ Hr).
  - split; [rewrite List.filter_app, (proj2 (reached_no_produce _ _ _ _ _ Hr));
            cbn; lia|]. split.
    + intros lvl fmt args Hin. apply in_app_or in Hin as [Hin|[E|[]]].
      * now apply Hlog with (1 := Hr) in Hin.
      * now inversion E.
    + intros _ Hp. unfold cdr_json in Hj. rewrite Hp in Hj. discriminate Hj.
  - split; [rewrite List.filter_app, (proj2 (reached_no_produce _ _ _ _ _ Hr));
            cbn; lia|]. split.
    + intros lvl fmt args Hin. apply in_app_or in Hin as [Hin|[E|[E|[]]]].
      * now apply Hlog with (1 := Hr) in Hin.
      * discriminate E.
      * now inversion E.
    + intros _ Hp. unfold cdr_json in Hj. rewrite Hp in Hj. discriminate Hj.
  - split; [rewrite List.filter_app, (proj2 (reached_no_produce _ _ _ _ _ Hr));
            cbn; lia|]. split.
    + intros lvl fmt args Hin. apply in_app_or in Hin as [Hin|[E|[]]].
      * now apply Hlog with (1 := Hr) in Hin.
      * discriminate E.
    + intros _ Hp. unfold cdr_json in Hj. rewrite Hp in Hj. discriminate Hj.
Qed.

(** X4.  The message of a record has no key exactly when the configured
    key field, lowered, is none of the nine key names (the empty default
    among them); otherwise the key is the value [cdr_get_key_value] finds
    in the record. *)
Theorem kafka_cdr_log_message_key (cdr : ast_cdr) (w w' : world)
  (g : cdr_kafka_global_conf) (r : Z) (evs : list event)
  (p : ast_kafka_producer) (t : string) (ky : option string) (pl : string)
  (len res : Z) :
  confs w = Some {| global := Some g |} ->
  kafka_cdr_log cdr w = Some (r, w') ->
  trace w' = trace w ++ evs ->
  In (EvProduce p t ky pl len res) evs ->
  (ky = None <-> ~ In (lower (key g)) key_names) /\
  (forall n f, In (n, f) key_fields -> strcasecmp (key g) n = 0 ->
     ky = Some (f cdr)).
Proof.
  intros Hconf Hrun Htrace Hin.
  destruct (kafka_cdr_log_inv cdr w w' g r evs Hconf Hrun Htrace) as (k & _ & Hout).
  destruct (outcome_produce _ _ _ _ _ _ _ _ _ _ _ _ Hout Hin)
    as (_ & _ & -> & _).
  split; [apply cdr_get_key_value_none|].
  intros n f Hn Hz. rewrite cdr_get_key_value_lookup.
  apply strcasecmp_zero in Hz.
  assert (Hk : In n key_names) by (change n with (fst (n, f)); now apply in_map).
  rewrite Hz, (key_names_lower n Hk).
  now rewrite (assoc_field_In key_fields n f key_names_NoDup Hn).
Qed.

(** *** The object of a record, member by member *)

Lemma assoc_pack_None args k :
  ~ In k (map fst args) -> assoc_pack args k = None.
Proof.
  induction args as [|[a v] rest IH]; simpl; [reflexivity|].
  intros Hn. destruct (String.eqb_spec a k) as [E|E]; [tauto|].
  apply IH. tauto.
Qed.

Lemma pack_members_get args : forall acc ms,
  List.NoDup (map fst args) ->
  pack_members args acc = Some ms ->
  forall k, members_get ms k =
            match assoc_pack args k with
            | Some v => pack_create v
            | None => members_get acc k
            end.
Proof.
  induction args as [|[a v] rest IH]; intros acc ms Hnd Hpack k; simpl in *.
  - now inversion Hpack.
  - apply List.NoDup_cons_iff in Hnd as [Hnotin Hnd].
    destruct (utf8_check_string a); [|discriminate].
    destruct (pack_create v) as [j|] eqn:Hv; [|discriminate].
    rewrite (IH _ _ Hnd Hpack k), members_get_set.
    destruct (String.eqb_spec a k) as [->|E]; [|reflexivity].
    now rewrite (assoc_pack_None rest k Hnotin).
Qed.

Lemma cdr_pack_keys_NoDup (cdr : ast_cdr) :
  List.NoDup (map fst (cdr_pack_args cdr)).
Proof.
  unfold cdr_pack_args. cbn [map fst].
  repeat (apply List.NoDup_cons; [cbn [In]; intros Hin;
    repeat (destruct Hin as [Hin|Hin]; [discriminate Hin|]); exact Hin|]).
  apply List.NoDup_nil.
Qed.

Lemma set_string_get ms k s :
  utf8_check_string k = true ->
  ast_json_string_create s <> None ->
  exists ms', set_string (JsonObject ms) k s = JsonObject ms' /\
    forall k', members_get ms' k' =
               if String.eqb k k' then ast_json_string_create s
               else members_get ms k'.
Proof.
  intros Hk Hs. unfold set_string, ast_json_object_set. rewrite Hk.
  destruct (ast_json_string_create s) as [v|] eqn:Hv; [|contradiction].
  eexists. split; [reflexivity|]. intros k'. apply members_get_set.
Qed.

Lemma set_vars_get vars : forall ms,
  (forall v, In v vars -> ast_json_string_create (value v) <> None) ->
  exists ms', set_vars (JsonObject ms) vars = JsonObject ms' /\
    forall k', members_get ms' k' =
               match (if utf8_check_string k' then last_var vars k' else None) with
               | Some v => ast_json_string_create v
               | None => members_get ms k'
               end.
Proof.
  induction vars as [|v rest IH]; intros ms Hvals; simpl.
  - exists ms. split; [reflexivity|]. intros k'.
    destruct (utf8_check_string k'); reflexivity.
  - assert (Hrest : forall v', In v' rest ->
              ast_json_string_create (value v') <> None)
      by (intros v' Hv'; apply Hvals; now right).
    destruct (utf8_check_string (name v)) eqn:Hk.
    + destruct (set_string_get ms (name v) (value v) Hk (Hvals v (or_introl eq_refl)))
        as (ms1 & -> & H1).
      destruct (IH ms1 Hrest) as (ms2 & -> & H2).
      exists ms2. split; [reflexivity|]. intros k'.
      rewrite H2, H1.
      destruct (String.eqb_spec (name v) k') as [E|E].
      * rewrite <- E, Hk. destruct (last_var rest (name v)); reflexivity.
      * destruct (utf8_check_string k'); [|reflexivity].
        destruct (last_var rest k'); reflexivity.
    + rewrite (set_string_refused ms (name v) (value v) Hk).
      destruct (IH ms Hrest) as (ms2 & -> & H2).
      exists ms2. split; [reflexivity|]. intros k'.
      rewrite H2.
      destruct (String.eqb_spec (name v) k') as [E|E].
      * rewrite <- E, Hk. reflexivity.
      * destruct (utf8_check_string k'); [|reflexivity].
        destruct (last_var rest k'); reflexivity.
Qed.

Section Strings_created_more.
Variable g : cdr_kafka_global_conf.
Variable cdr : ast_cdr.
Hypothesis Hnames : forall k, In k names_asked -> utf8_check_string k = true.
Hypothesis Hcreate :
  forall s, In s (strings_asked g cdr) -> ast_json_string_create s <> None.

(** The code's sequence of writes gives each member the value of its last
    writer. *)
Lemma cdr_json_get (json : ast_json) :
  cdr_json g cdr = Some json ->
  forall k, ast_json_object_get json k = published_value g cdr k.
Proof.
  unfold cdr_json, ast_json_pack.
  destruct (pack_members (cdr_pack_args cdr) []) as [ms0|] eqn:Hpack; [|discriminate].
  intros Hjson k. inversion Hjson as [Hfill]. clear Hjson.
  pose proof (pack_members_get _ _ _ (cdr_pack_keys_NoDup cdr) Hpack k) as K0.
  unfold cdr_json_fill, published_value, packed_value.
  destruct (set_string_get ms0 "EntityID" ast_eid_default_str
              (name_EntityID Hnames) (asked_eid g cdr Hcreate)) as (ms1 & -> & K1).
  assert (exists ms2,
    (if negb (ast_strlen_zero (Some ast_config_AST_SYSTEM_NAME))
     then set_string (JsonObject ms1) "SystemName" ast_config_AST_SYSTEM_NAME
     else JsonObject ms1) = JsonObject ms2 /\
    forall k', members_get ms2 k' =
      if negb (ast_strlen_zero (Some ast_config_AST_SYSTEM_NAME))
         && String.eqb "SystemName" k'
      then ast_json_string_create ast_config_AST_SYSTEM_NAME
      else members_get ms1 k') as (ms2 & -> & K2).
  { destruct (negb (ast_strlen_zero (Some ast_config_AST_SYSTEM_NAME))) eqn:Hs.
    - destruct (set_string_get ms1 "SystemName" ast_config_AST_SYSTEM_NAME
                  (name_SystemName Hnames) (asked_system_name g cdr Hcreate Hs))
        as (ms2 & -> & K2). now exists ms2.
    - now exists ms1. }
  destruct (set_vars_get (varshead cdr) ms2 (asked_vars g cdr Hcreate))
    as (ms3 & -> & K3).
  assert (exists ms4,
    (if negb (loguniqueid g =? 0)
     then set_string (JsonObject ms3) "uniqueid" (uniqueid cdr)
     else JsonObject ms3) = JsonObject ms4 /\
    forall k', members_get ms4 k' =
      if negb (loguniqueid g =? 0) && String.eqb "uniqueid" k'
      then ast_json_string_create (uniqueid cdr)
      else members_get ms3 k') as (ms4 & -> & K4).
  { destruct (negb (loguniqueid g =? 0)) eqn:Hf.
    - destruct (set_string_get ms3 "uniqueid" (uniqueid cdr)
                  (name_uniqueid Hnames) (asked_uniqueid g cdr Hcreate Hf))
        as (ms4 & -> & K4).
      now exists ms4.
    - now exists ms3. }
  assert (exists ms5,
    (if negb (loguserfield g =? 0)
     then set_string (JsonObject ms4) "userfield" (userfield cdr)
     else JsonObject ms4) = JsonObject ms5 /\
    forall k', members_get ms5 k' =
      if negb (loguserfield g =? 0) && String.eqb "userfield" k'
      then ast_json_string_create (userfield cdr)
      else members_get ms4 k') as (ms5 & -> & K5).
  { destruct (negb (loguserfield g =? 0)) eqn:Hf.
    - destruct (set_string_get ms4 "userfield" (userfield cdr)
                  (name_userfield Hnames) (asked_userfield g cdr Hcreate Hf))
        as (ms5 & -> & K5).
      now exists ms5.
    - now exists ms4. }
  cbn [ast_json_object_get].
  rewrite K5, K4, K3, K2, K1, K0. cbn [members_get].
  destruct (assoc_pack (cdr_pack_args cdr) k); reflexivity.
Qed.

End Strings_created_more.

(** X5.  Let the JSON library accept the literal member names of lines
    331-357 and create the strings the handler asks it for for this
    record.  A name is a member of the object the handler publishes
    exactly when it is one of the fixed members, or "SystemName" with a
    system name configured, or the name of a CDR variable of the record
    that the library accepts as a member name, or "uniqueid" with
    [loguniqueid] set, or "userfield" with [loguserfield] set. *)
Theorem published_json_member_names (cdr : ast_cdr) (w w' : world)
  (g : cdr_kafka_global_conf) (r : Z) (evs : list event)
  (p : ast_kafka_producer) (t : string) (ky : option string) (payload : string)
  (len res : Z) :
  (forall k, In k names_asked -> utf8_check_string k = true) ->
  (forall s, In s (strings_asked g cdr) -> ast_json_string_create s <> None) ->
  confs w = Some {| global := Some g |} ->
  kafka_cdr_log cdr w = Some (r, w') ->
  trace w' = trace w ++ evs ->
  In (EvProduce p t ky payload len res) evs ->
  exists json,
    cdr_json g cdr = Some json /\
    ast_json_dump_string json = Some payload /\
    forall k, has_member json k = true <->
      In k fixed_members \/
      (ast_config_AST_SYSTEM_NAME <> "" /\ k = "SystemName") \/
      (has_var cdr k = true /\ utf8_check_string k = true) \/
      (loguniqueid g <> 0 /\ k = "uniqueid") \/
      (loguserfield g <> 0 /\ k = "userfield").
Proof.
  intros Hnames Hcreate Hconf Hrun Htrace Hin.
  destruct (kafka_cdr_log_inv cdr w w' g r evs Hconf Hrun Htrace) as (k0 & _ & Hout).
  destruct (outcome_produce _ _ _ _ _ _ _ _ _ _ _ _ Hout Hin)
    as (_ & _ & _ & _ & (json & Hjson & Hdump) & _).
  exists json. split; [exact Hjson|]. split; [exact Hdump|].
  intros k. rewrite (cdr_json_members g cdr Hnames Hcreate json Hjson k).
  assert (Hfix : existsb (String.eqb k) fixed_members = true <-> In k fixed_members).
  { rewrite existsb_exists. split.
    - intros (x & Hx & E). apply String.eqb_eq in E. now subst.
    - intros Hk. exists k. split; [exact Hk|apply String.eqb_refl]. }
  assert (Hsys : negb (ast_strlen_zero (Some ast_config_AST_SYSTEM_NAME)) = true
                 <-> ast_config_AST_SYSTEM_NAME <> "").
  { destruct ast_config_AST_SYSTEM_NAME; cbn; split; congruence. }
  assert (Hflag : forall z, negb (z =? 0) = true <-> z <> 0).
  { intros z. destruct (Z.eqb_spec z 0); cbn; split; congruence. }
  assert (Heq : forall a, String.eqb a k = true <-> k = a).
  { intros a. rewrite String.eqb_eq. split; congruence. }
  rewrite !orb_true_iff, !andb_true_iff, Hfix, Hsys, !Hflag, !Heq. tauto.
Qed.

(** X6.  Let the JSON library accept the literal member names of lines
    331-357 and create the strings the handler asks it for for this
    record.  Each member of the published object holds the value of its
    last writer in lines 291-357: "userfield" and "uniqueid" hold the
    record's fields when their flags are set; otherwise a CDR variable
    whose name the library accepts gives its name's member the value of the
    last variable so named, replacing the system identification and the
    packed member of that name; a member with no such writer holds what
    [ast_json_pack] created for it, which for "durationsec", "billsec" and
    "sequence" is the number read as a C int. *)
Theorem published_json_values (cdr : ast_cdr) (w w' : world)
  (g : cdr_kafka_global_conf) (r : Z) (evs : list event)
  (p : ast_kafka_producer) (t : string) (ky : option string) (payload : string)
  (len res : Z) :
  (forall k, In k names_asked -> utf8_check_string k = true) ->
  (forall s, In s (strings_asked g cdr) -> ast_json_string_create s <> None) ->
  confs w = Some {| global := Some g |} ->
  kafka_cdr_log cdr w = Some (r, w') ->
  trace w' = trace w ++ evs ->
  In (EvProduce p t ky payload len res) evs ->
  exists json,
    cdr_json g cdr = Some json /\
    ast_json_dump_string json = Some payload /\
    forall k, ast_json_object_get json k = published_value g cdr k.
Proof.
  intros Hnames Hcreate Hconf Hrun Htrace Hin.
  destruct (kafka_cdr_log_inv cdr w w' g r evs Hconf Hrun Htrace) as (k0 & _ & Hout).
  destruct (outcome_produce _ _ _ _ _ _ _ _ _ _ _ _ Hout Hin)
    as (_ & _ & _ & _ & (json & Hjson & Hdump) & _).
  exists json. split; [exact Hjson|]. split; [exact Hdump|].
  apply (cdr_json_get g cdr Hnames Hcreate json Hjson).
Qed.

(** *** The producer cache *)

(** X7.  [setup_cached_producer] leaves the configuration alone.  With no
    configuration or an empty connection name it only logs the warning:
    res_kafka is not called and the cache keeps what it held.  With a
    connection name it calls [ast_kafka_get_producer] once; a producer
    returned replaces the cached one, and on NULL the cache keeps the
    producer it held and the error line names the connection. *)
Theorem setup_cached_producer_behaviour (w : world) :
  let r := fst (setup_cached_producer w) in
  let w' := snd (setup_cached_producer w) in
  confs w' = confs w /\
  ((forall g, confs w = Some {| global := Some g |} -> connection g = "") ->
     r = -1 /\
     w' = ast_log LOG_WARNING "No Kafka connection configured" [] w) /\
  (forall g, confs w = Some {| global := Some g |} -> connection g <> "" ->
     kafka_st w' = snd (ast_kafka_get_producer (connection g) (kafka_st w)) /\
     match fst (ast_kafka_get_producer (connection g) (kafka_st w)) with
     | Some p =>
         r = 0 /\ cached_producer w' = Some p /\
         trace w' = trace w ++ [EvGetProducer (connection g) (Some p)]
     | None =>
         r = -1 /\ cached_producer w' = cached_producer w /\
         trace w' = trace w ++
           [EvGetProducer (connection g) None;
            EvLog LOG_ERROR "Failed to get Kafka producer for connection '%s'"
              [connection g]]
     end).
Proof.
  cbv zeta.
  assert (Hcases : (exists g, confs w = Some {| global := Some g |}) \/
                   (forall g, confs w <> Some {| global := Some g |})).
  { destruct (confs w) as [[[g|]]|]; [left; now exists g|right..]; discriminate. }
  destruct Hcases as [(g & Hconf)|Hnone].
  - unfold setup_cached_producer. rewrite Hconf.
    destruct (connection g) as [|c rest] eqn:Hconn; cbn [ast_strlen_zero].
    + cbn [fst snd]. split; [exact Hconf|]. split; [auto|].
      intros g' Hg' Hne. inversion Hg'; subst g'. congruence.
    + unfold get_producer.
      destruct (ast_kafka_get_producer (String c rest) (kafka_st w))
        as [[p|] k] eqn:Hget; cbn [fst snd].
      * split; [exact Hconf|]. split.
        -- intros Hall. specialize (Hall g eq_refl). congruence.
        -- intros g' Hg' _. inversion Hg'; subst g'.
           rewrite Hconn, Hget. cbn. auto.
      * split; [exact Hconf|]. split.
        -- intros Hall. specialize (Hall g eq_refl). congruence.
        -- intros g' Hg' _. inversion Hg'; subst g'.
           rewrite Hconn, Hget. cbn. rewrite <- app_assoc. auto.
  - assert (Hw : setup_cached_producer w =
                 (-1, ast_log LOG_WARNING "No Kafka connection configured" [] w)).
    { unfold setup_cached_producer.
      destruct (confs w) as [[[g|]]|]; [now contradiction (Hnone g)|reflexivity..]. }
    rewrite Hw. cbn [fst snd]. split; [reflexivity|]. split; [auto|].
    intros g Hg. now contradiction (Hnone g).
Qed.

(** X8.  After [setup_cached_producer] returned 0, the handler makes no
    call of [ast_kafka_get_producer], and every call of
    [ast_kafka_produce] it makes uses the producer that
    [setup_cached_producer] obtained for the configured connection. *)
Theorem cached_producer_is_used (cdr : ast_cdr) (w0 w w' : world)
  (g : cdr_kafka_global_conf) (r : Z) (evs : list event) :
  confs w0 = Some {| global := Some g |} ->
  setup_cached_producer w0 = (0, w) ->
  kafka_cdr_log cdr w = Some (r, w') ->
  trace w' = trace w ++ evs ->
  exists p,
    fst (ast_kafka_get_producer (connection g) (kafka_st w0)) = Some p /\
    cached_producer w = Some p /\
    (forall e, In e evs -> is_get_producer e = false) /\
    (forall p' t ky pl len res, In (EvProduce p' t ky pl len res) evs -> p' = p).
Proof.
  intros Hconf0 Hsetup Hrun Htrace.
  pose proof (setup_cached_producer_installs w0) as Hi. rewrite Hsetup in Hi.
  destruct Hi as (_ & Hc & Hok & _).
  destruct (Hok eq_refl) as (g' & p & Hg' & Hget & Hcache).
  rewrite Hconf0 in Hg'. inversion Hg'; subst g'.
  assert (Hconf : confs w = Some {| global := Some g |}) by congruence.
  exists p. split; [exact Hget|]. split; [exact Hcache|].
  destruct (kafka_cdr_log_inv cdr w w' g r evs Hconf Hrun Htrace) as (k & _ & Hout).
  destruct (outcome_split _ _ _ _ _ _ Hout)
    as [(Ha & _)|(q & k0 & pre & post & Hr & -> & Hng & Hp)].
  - unfold acquired in Ha. rewrite Hcache in Ha. discriminate.
  - destruct (reached_from_cache _ _ _ _ _ _ Hcache Hr) as [-> ->].
    split; [exact Hng|exact Hp].
Qed.

(** X9.  The fallback does not fill the cache: with an empty cache, each
    of two records handled in a row starts with its own call of
    [ast_kafka_get_producer] for the configured connection, and the cache
    is still empty afterwards. *)
Theorem fallback_is_repeated (cdr1 cdr2 : ast_cdr) (w w1 w2 : world)
  (g : cdr_kafka_global_conf) (r1 r2 : Z) :
  confs w = Some {| global := Some g |} ->
  cached_producer w = None ->
  kafka_cdr_log cdr1 w = Some (r1, w1) ->
  kafka_cdr_log cdr2 w1 = Some (r2, w2) ->
  cached_producer w2 = None /\
  exists ret1 rest1 ret2 rest2,
    trace w2 = trace w ++ (EvGetProducer (connection g) ret1 :: rest1)
                       ++ (EvGetProducer (connection g) ret2 :: rest2) /\
    (forall e, In e rest1 -> is_get_producer e = false) /\
    (forall e, In e rest2 -> is_get_producer e = false).
Proof.
  intros Hconf Hcache Hrun1 Hrun2.
  assert (Hstep : forall cdr (u u' : world) r,
            confs u = Some {| global := Some g |} -> cached_producer u = None ->
            kafka_cdr_log cdr u = Some (r, u') ->
            confs u' = confs u /\ cached_producer u' = None /\
            exists ret rest,
              trace u' = trace u ++ EvGetProducer (connection g) ret :: rest /\
              (forall e, In e rest -> is_get_producer e = false)).
  { intros cdr u u' r Hcu Hca Hru.
    destruct (kafka_cdr_log_outcome cdr u g Hcu) as (r0 & k & evs & Hrun0 & Hout).
    rewrite Hru in Hrun0. inversion Hrun0; subst r0 u'. cbn [confs cached_producer trace moved].
    split; [reflexivity|]. split; [exact Hca|].
    destruct (outcome_split _ _ _ _ _ _ Hout)
      as [(_ & _ & ->)|(q & k0 & pre & post & Hr & -> & Hng & _)].
    - do 2 eexists. split; [reflexivity|]. intros e [<-|[]]. reflexivity.
    - destruct (reached_from_fallback _ _ _ _ _ Hca Hr) as [_ ->].
      do 2 eexists. split; [reflexivity|]. exact Hng. }
  destruct (Hstep cdr1 w w1 r1 Hconf Hcache Hrun1)
    as (Hc1 & Hca1 & ret1 & rest1 & Ht1 & Hn1).
  assert (Hconf1 : confs w1 = Some {| global := Some g |}) by congruence.
  destruct (Hstep cdr2 w1 w2 r2 Hconf1 Hca1 Hrun2)
    as (_ & Hca2 & ret2 & rest2 & Ht2 & Hn2).
  split; [exact Hca2|].
  exists ret1, rest1, ret2, rest2.
  split; [|split; assumption].
  rewrite Ht2, Ht1. now rewrite <- app_assoc.
Qed.

End Handler_more.

(** *** Configuration objects and the life cycle *)

Section Life.
Context {H : Host} {C : Core}.

Lemma load_config_cases (reload : bool) (s : system) :
  exists status held c1 r evs,
    aco_process_config reload (confs (module_st s)) (core_st s) = (status, held, c1) /\
    load_config reload s =
      (r, {| module_st := {| confs := held;
                             cached_producer := cached_producer (module_st s);
                             kafka_st := kafka_st (module_st s);
                             trace := trace (module_st s) ++ evs |};
             core_st := c1 |}) /\
    (status = ACO_PROCESS_ERROR /\ r = -1 /\ evs = [] \/
     status <> ACO_PROCESS_ERROR /\
       ((exists g, held = Some {| global := Some g |}) /\ r = 0 /\ evs = [] \/
        (forall g, held <> Some {| global := Some g |}) /\ r = -1 /\
          evs = [EvLog LOG_ERROR "Error obtaining config from cdr_kafka.conf" []])).
Proof.
  unfold load_config.
  destruct (aco_process_config reload (confs (module_st s)) (core_st s))
    as [[status held] c1] eqn:Hp.
  assert (Hnil : forall (w : world) cf,
            {| confs := cf; cached_producer := cached_producer w;
               kafka_st := kafka_st w; trace := trace w |} =
            {| confs := cf; cached_producer := cached_producer w;
               kafka_st := kafka_st w; trace := trace w ++ [] |}).
  { intros w cf. now rewrite app_nil_r. }
  exists status, held, c1.
  destruct status.
  - cbn [on_core on_world set_confs module_st core_st confs].
    destruct held as [[[g|]]|].
    + exists 0, []. split; [reflexivity|]. split.
      * unfold on_core, on_world, set_confs. cbn. now rewrite <- Hnil.
      * right. split; [discriminate|]. left. eauto.
    + exists (-1), [EvLog LOG_ERROR "Error obtaining config from cdr_kafka.conf" []].
      split; [reflexivity|]. split; [reflexivity|].
      right. split; [discriminate|]. right. split; [discriminate|auto].
    + exists (-1), [EvLog LOG_ERROR "Error obtaining config from cdr_kafka.conf" []].
      split; [reflexivity|]. split; [reflexivity|].
      right. split; [discriminate|]. right. split; [discriminate|auto].
  - exists (-1), []. split; [reflexivity|]. split.
    + unfold on_core, on_world, set_confs. cbn. now rewrite <- Hnil.
    + left. auto.
  - cbn [on_core on_world set_confs module_st core_st confs].
    destruct held as [[[g|]]|].
    + exists 0, []. split; [reflexivity|]. split.
      * unfold on_core, on_world, set_confs. cbn. now rewrite <- Hnil.
      * right. split; [discriminate|]. left. eauto.
    + exists (-1), [EvLog LOG_ERROR "Error obtaining config from cdr_kafka.conf" []].
      split; [reflexivity|]. split; [reflexivity|].
      right. split; [discriminate|]. right. split; [discriminate|auto].
    + exists (-1), [EvLog LOG_ERROR "Error obtaining config from cdr_kafka.conf" []].
      split; [reflexivity|]. split; [reflexivity|].
      right. split; [discriminate|]. right. split; [discriminate|auto].
Qed.

Lemma kafka_cdr_log_returns (cdr : ast_cdr) (w : world) (g : cdr_kafka_global_conf) :
  confs w = Some {| global := Some g |} ->
  exists r w', kafka_cdr_log cdr w = Some (r, w').
Proof.
  intros Hconf.
  destruct (kafka_cdr_log_outcome cdr w g Hconf) as (r & k & evs & Hrun & _).
  eauto.
Qed.

(** [load_config] hands the cache and res_kafka on as they were. *)
Lemma load_config_establishes_cache (reload : bool) (s : system) :
  cached_producer (module_st (snd (load_config reload s)))
    = cached_producer (module_st s) /\
  kafka_st (module_st (snd (load_config reload s))) = kafka_st (module_st s).
Proof.
  destruct (load_config_cases reload s)
    as (status & held & c1 & r & evs & _ & -> & _).
  split; reflexivity.
Qed.

(** X10.  [load_config] returns 0 or -1 and never touches the producer
    cache or res_kafka.  It returns 0 exactly when [aco_process_config] did
    not report an error and the configuration holder then holds an object
    with its global part; in that case it logs nothing and the handler,
    run on the resulting state, returns for every record. *)
Theorem load_config_establishes_configuration (reload : bool) (s : system) :
  let r := fst (load_config reload s) in
  let s' := snd (load_config reload s) in
  (r = 0 \/ r = -1) /\
  cached_producer (module_st s') = cached_producer (module_st s) /\
  kafka_st (module_st s') = kafka_st (module_st s) /\
  (r = 0 <->
     fst (fst (aco_process_config reload (confs (module_st s)) (core_st s)))
       <> ACO_PROCESS_ERROR /\
     exists g, confs (module_st s') = Some {| global := Some g |}) /\
  (r = 0 ->
     trace (module_st s') = trace (module_st s) /\
     forall cdr, exists r' w', kafka_cdr_log cdr (module_st s') = Some (r', w')).
Proof.
  cbv zeta.
  destruct (load_config_cases reload s)
    as (status & held & c1 & r & evs & Hp & -> & Hc).
  rewrite Hp. cbn [fst snd module_st confs cached_producer kafka_st trace].
  destruct Hc as [(-> & -> & ->)|(Hne & [((g & ->) & -> & ->)|(Hn & -> & ->)])].
  - split; [now right|]. split; [reflexivity|]. split; [reflexivity|].
    split; [split; [discriminate|now intros [Hx _]]|discriminate].
  - split; [now left|]. split; [reflexivity|]. split; [reflexivity|].
    split; [split; eauto|].
    intros _. split; [now rewrite app_nil_r|].
    intros cdr. now apply kafka_cdr_log_returns with (g := g).
  - split; [now right|]. split; [reflexivity|]. split; [reflexivity|].
    split; [|discriminate].
    split; [discriminate|]. intros [_ (g & Hg)]. now contradiction (Hn g).
Qed.

(** X11.  [load_module] returns AST_MODULE_LOAD_SUCCESS exactly when
    [aco_info_init], [load_config] and [ast_cdr_register] succeeded; what
    [setup_cached_producer] returned plays no part.  After a successful
    load the configuration is in place, the handler returns for every
    record, and the cache holds either what it held before or the
    producer of the configured connection. *)
Theorem load_module_success (s : system) :
  let c2 := fold_left (fun c o => aco_option_register o c) registered_options
              (snd (aco_info_init (core_st s))) in
  let lc := load_config false (on_core c2 s) in
  let r := fst (load_module s) in
  let s' := snd (load_module s) in
  (r = AST_MODULE_LOAD_SUCCESS <->
     fst (aco_info_init (core_st s)) = 0 /\
     fst lc = 0 /\
     fst (ast_cdr_register CDR_NAME module_description (core_st (snd lc))) = 0) /\
  (r = AST_MODULE_LOAD_SUCCESS ->
     exists g,
       confs (module_st s') = Some {| global := Some g |} /\
       (forall cdr, exists r' w', kafka_cdr_log cdr (module_st s') = Some (r', w')) /\
       (cached_producer (module_st s') = cached_producer (module_st s) \/
        exists p,
          cached_producer (module_st s') = Some p /\
          fst (ast_kafka_get_producer (connection g) (kafka_st (module_st s)))
            = Some p)).
Proof.
  cbv zeta. unfold load_module.
  destruct (aco_info_init (core_st s)) as [res0 c1] eqn:Hinit. cbn [fst snd].
  destruct (Z.eqb_spec res0 0) as [->|Hres0]; cbn [negb].
  2: { cbn [fst snd]. unfold AST_MODULE_LOAD_SUCCESS.
       split; [split; [discriminate|now intros [E _]]|discriminate]. }
  set (c2 := fold_left (fun c o => aco_option_register o c) registered_options c1).
  destruct (load_config_cases false (on_core c2 s))
    as (status & held & c3 & r & evs & Hp & Hlc & Hc).
  rewrite Hlc. unfold on_world, on_core.
  cbn [fst snd module_st core_st].
  assert (Hr : r = 0 \/ r = -1) by (destruct Hc as [(_ & -> & _)|(_ & [(_ & -> & _)|(_ & -> & _)])]; auto).
  destruct (Z.eqb_spec r 0) as [->|Hrne]; cbn [negb].
  2: { cbn [fst snd]. unfold AST_MODULE_LOAD_SUCCESS, AST_MODULE_LOAD_DECLINE.
       split; [split; [discriminate|now intros (_ & E & _)]|discriminate]. }
  assert (Hheld : exists g, held = Some {| global := Some g |} /\ evs = []).
  { destruct Hc as [(_ & E & _)|(_ & [(Hg & _ & He)|(_ & E & _)])]; try discriminate E.
    destruct Hg as (g & Hg). eauto. }
  destruct Hheld as (g & -> & ->).
  cbn [confs cached_producer kafka_st trace].
  set (w2 := {| confs := Some {| global := Some g |};
                cached_producer := cached_producer (module_st s);
                kafka_st := kafka_st (module_st s);
                trace := trace (module_st s) ++ [] |}).
  pose proof (setup_cached_producer_installs w2) as Hi.
  destruct (setup_cached_producer w2) as [rs w3] eqn:Hsetup. cbn [snd].
  destruct Hi as (_ & Hconf3 & Hok & Hfail).
  destruct (ast_cdr_register CDR_NAME module_description c3) as [res4 c4] eqn:Hreg.
  cbn [fst].
  destruct (Z.eqb_spec res4 0) as [->|Hres4]; cbn [negb fst snd].
  2: { unfold AST_MODULE_LOAD_SUCCESS, AST_MODULE_LOAD_FAILURE.
       split; [split; [discriminate|now intros (_ & _ & E)]|discriminate]. }
  split; [split; auto|]. intros _.
  exists g. split; [exact Hconf3|]. split.
  - intros cdr. apply kafka_cdr_log_returns with (g := g). exact Hconf3.
  - assert (Hrs : rs = 0 \/ rs = -1)
      by (pose proof (setup_cached_producer_installs w2) as Hi2;
          rewrite Hsetup in Hi2; tauto).
    destruct Hrs as [->| ->].
    + right. destruct (Hok eq_refl) as (g' & p & Hg' & Hget & Hcache).
      inversion Hg'; subst g'. exists p. split; [exact Hcache|exact Hget].
    + left. now apply Hfail.
Qed.

(** X12.  [reload_module] returns what [load_config] returned and runs
    [setup_cached_producer] only after a 0.  When [load_config] failed the
    cache and res_kafka are as before.  When it succeeded but no producer
    could be set up, [reload_module] still returns 0 and the cache keeps
    the producer it held before the reload. *)
Theorem reload_module_keeps_producer (s : system) :
  let lc := load_config true s in
  let r := fst (reload_module s) in
  let s' := snd (reload_module s) in
  r = fst lc /\
  confs (module_st s') = confs (module_st (snd lc)) /\
  (r <> 0 -> s' = snd lc) /\
  (r = 0 -> fst (setup_cached_producer (module_st (snd lc))) <> 0 ->
     cached_producer (module_st s') = cached_producer (module_st s)) /\
  (r = 0 -> fst (setup_cached_producer (module_st (snd lc))) = 0 ->
     exists g p,
       confs (module_st s') = Some {| global := Some g |} /\
       fst (ast_kafka_get_producer (connection g) (kafka_st (module_st s))) = Some p /\
       cached_producer (module_st s') = Some p).
Proof.
  cbv zeta. unfold reload_module.
  pose proof (load_config_establishes_cache true s) as (Hcache & Hk).
  destruct (load_config true s) as [res s1] eqn:Hlc. cbn [fst snd] in *.
  pose proof (setup_cached_producer_installs (module_st s1)) as Hi.
  destruct (setup_cached_producer (module_st s1)) as [rs w2] eqn:Hsetup.
  destruct Hi as (Hrs & Hconf2 & Hok & Hfail).
  destruct (Z.eqb_spec res 0) as [->|Hne]; cbn [fst snd on_world module_st];
    rewrite ?Hsetup; cbn [fst snd].
  - split; [reflexivity|]. split; [exact Hconf2|]. split; [congruence|]. split.
    + intros _ Hn. rewrite <- Hcache. apply Hfail.
      destruct Hrs as [E|E]; [contradiction|exact E].
    + intros _ E. destruct (Hok E) as (g & p & Hg & Hget & Hc).
      exists g, p. rewrite Hk in Hget. split; [congruence|]. split; assumption.
  - split; [reflexivity|]. split; [reflexivity|]. split; [reflexivity|].
    split; intros E; contradiction.
Qed.

(** X13.  [unload_module] empties the producer cache and the
    configuration holder before it asks the CDR engine to unregister the
    backend, whatever the engine answers; it returns -1 exactly when the
    engine refuses, logs nothing and leaves res_kafka alone.  In the
    state it leaves, the handler's assertion on the configuration does
    not hold. *)
Theorem unload_module_releases_first (s : system) :
  let r := fst (unload_module s) in
  let s' := snd (unload_module s) in
  confs (module_st s') = None /\
  cached_producer (module_st s') = None /\
  trace (module_st s') = trace (module_st s) /\
  kafka_st (module_st s') = kafka_st (module_st s) /\
  (r = 0 \/ r = -1) /\
  (r = -1 <->
     fst (ast_cdr_unregister CDR_NAME (aco_info_destroy (core_st s))) <> 0) /\
  (forall cdr, kafka_cdr_log cdr (module_st s') = None).
Proof.
  cbv zeta. unfold unload_module.
  cbn [on_world on_core module_st core_st].
  destruct (ast_cdr_unregister CDR_NAME (aco_info_destroy (core_st s)))
    as [res c4] eqn:Hun. cbn [fst].
  destruct (Z.eqb_spec res 0) as [->|Hne]; cbn [negb fst snd module_st];
    (split; [reflexivity|]); (split; [reflexivity|]); (split; [reflexivity|]);
    (split; [reflexivity|]).
  - split; [now left|]. split; [split; [discriminate|intros E; now contradiction E]|].
    reflexivity.
  - split; [now right|]. split; [split; auto|]. reflexivity.
Qed.

(** X14.  [conf_alloc] yields NULL or a configuration object whose global
    part is present and is the defaults applied to a blank object; so
    [setup_kafka], run on a pending configuration that [conf_alloc] made,
    returns 0 and logs nothing.  [setup_kafka] returns -1, with its error
    line, only for a pending object without global part. *)
Theorem conf_alloc_passes_setup_kafka (c : core) (s : system) :
  let conf := fst (conf_alloc c) in
  (conf = None \/
   conf = Some {| global := Some (aco_set_defaults blank_global) |}) /\
  (aco_pending_config (core_st s) = conf -> setup_kafka s = (0, s)) /\
  (fst (setup_kafka s) = -1 <->
     aco_pending_config (core_st s) = Some {| global := None |}) /\
  (fst (setup_kafka s) = -1 ->
     snd (setup_kafka s) =
       on_world (ast_log LOG_ERROR "Invalid cdr_kafka.conf" []) s).
Proof.
  cbv zeta.
  assert (Halloc : fst (conf_alloc c) = None \/
            fst (conf_alloc c) = Some {| global := Some (aco_set_defaults blank_global) |}).
  { unfold conf_alloc, conf_global_create.
    destruct (ao2_alloc c) as [[|] c1]; cbn [negb]; [|now left].
    destruct (ao2_alloc c1) as [[|] c2]; cbn [negb]; [|now left].
    destruct (ast_string_field_init c2) as [res c3].
    destruct (negb (res =? 0)); [now left|now right]. }
  split; [exact Halloc|]. unfold setup_kafka. split; [|split].
  - intros Hp. rewrite Hp. destruct Halloc as [-> | ->]; reflexivity.
  - destruct (aco_pending_config (core_st s)) as [[[g|]]|]; cbn [fst];
      split; try discriminate; reflexivity.
  - destruct (aco_pending_config (core_st s)) as [[[g|]]|]; cbn [fst snd];
      try discriminate; reflexivity.
Qed.

End Life.

(** *** Runs on the stub host *)

Import Fixtures LifeFixtures.
#[local] Existing Instance stub.

Lemma cdr_get_key_value_case_witness :
  strcasecmp "SRC" "src" = 0 /\
  cdr_get_key_value build_test_cdr (Some "SRC")
    = cdr_get_key_value build_test_cdr (Some "src").
Proof.
  assert (Hz : strcasecmp "SRC" "src" = 0) by reflexivity.
  split; [exact Hz|].
  exact (cdr_get_key_value_case build_test_cdr "SRC" "src" Hz).
Defined.

(** A record published through the fallback. *)
Lemma kafka_cdr_log_produce_call_witness :
  let g := {| connection := "main"; topic := "asterisk_cdr"; key := "linkedid";
              loguniqueid := 0; loguserfield := 0 |} in
  let w := stub_world true {| global := Some g |} None in
  exists r w' evs,
    confs w = Some {| global := Some g |} /\
    kafka_cdr_log build_test_cdr w = Some (r, w') /\
    trace w' = trace w ++ evs /\
    (forall p t ky pl len res, In (EvProduce p t ky pl len res) evs ->
       acquired g w = Some p /\
       t = topic g /\
       ky = cdr_get_key_value build_test_cdr (Some (key g)) /\
       len = strlen pl /\
       (exists json, cdr_json g build_test_cdr = Some json /\
                     ast_json_dump_string json = Some pl) /\
       (r = 0 <-> res = 0)) /\
    (length (List.filter is_produce evs) <= 1)%nat /\
    (r = 0 <->
     exists pre p pl, evs = pre ++ [EvProduce p (topic g)
                                     (cdr_get_key_value build_test_cdr (Some (key g)))
                                     pl (strlen pl) 0]).
Proof.
  intros g w. do 3 eexists.
  split; [reflexivity|].
  split; [vm_compute; reflexivity|].
  split; [vm_compute; reflexivity|].
  eapply (kafka_cdr_log_produce_call build_test_cdr w _ g);
    [reflexivity|vm_compute; reflexivity|vm_compute; reflexivity].
Defined.

(** A record lost to a failing [ast_json_pack], with a cached producer. *)
Lemma kafka_cdr_log_logging_witness :
  let g := {| connection := "main"; topic := "asterisk_cdr"; key := "linkedid";
              loguniqueid := 0; loguserfield := 0 |} in
  let w := stub_world false {| global := Some g |} (Some 1%positive) in
  exists r w' evs,
    confs w = Some {| global := Some g |} /\
    kafka_cdr_log build_test_cdr w = Some (r, w') /\
    trace w' = trace w ++ evs /\
    (length (List.filter is_log evs) <= 1)%nat /\
    (forall lvl fmt args, In (EvLog lvl fmt args) evs ->
       lvl = LOG_ERROR /\ args = [] /\ r = -1) /\
    (acquired g w <> None ->
     @ast_json_pack (stub_host false)
       (@cdr_pack_args (stub_host false) build_test_cdr) = None ->
       r = -1 /\ List.filter is_log evs = []).
Proof.
  intros g w. do 3 eexists.
  split; [reflexivity|].
  split; [vm_compute; reflexivity|].
  split; [vm_compute; reflexivity|].
  eapply (kafka_cdr_log_logging (H := stub_host false) build_test_cdr w _ g);
    [reflexivity|vm_compute; reflexivity|vm_compute; reflexivity].
Defined.

(** A record published with the key taken from its linkedid. *)
Lemma kafka_cdr_log_message_key_witness :
  let g := {| connection := "main"; topic := "asterisk_cdr"; key := "LinkedID";
              loguniqueid := 0; loguserfield := 0 |} in
  let w := stub_world true {| global := Some g |} (Some 1%positive) in
  exists r w' evs p t ky pl len res,
    confs w = Some {| global := Some g |} /\
    kafka_cdr_log build_test_cdr w = Some (r, w') /\
    trace w' = trace w ++ evs /\
    In (EvProduce p t ky pl len res) evs /\
    (ky = None <-> ~ In (lower (key g)) key_names) /\
    (forall n f, In (n, f) key_fields -> strcasecmp (key g) n = 0 ->
       ky = Some (f build_test_cdr)).
Proof.
  intros g w. do 9 eexists.
  split; [reflexivity|].
  split; [vm_compute; reflexivity|].
  split; [vm_compute; reflexivity|].
  split; [left; reflexivity|].
  eapply (kafka_cdr_log_message_key build_test_cdr w _ g);
    [reflexivity|vm_compute; reflexivity|vm_compute; reflexivity|left; reflexivity].
Defined.

(** A record with three CDR variables, one of them named like a fixed
    member and one under a name the library refuses. *)
Lemma published_json_member_names_witness :
  let g := {| connection := "main"; topic := "asterisk_cdr"; key := "";
              loguniqueid := 1; loguserfield := 0 |} in
  let cdr := with_vars build_test_cdr
               [{| name := "queue"; value := "sales" |};
                {| name := String (ascii_of_nat 255) "x"; value := "dropped" |};
                {| name := "clid"; value := "spoofed" |}] in
  let w := strict_world {| global := Some g |} (Some 1%positive) in
  exists r w' evs p t ky payload len res,
    (forall k, In k names_asked -> @utf8_check_string strict_host k = true) /\
    (forall s, In s (@strings_asked strict_host g cdr) ->
       @ast_json_string_create strict_host s <> None) /\
    confs w = Some {| global := Some g |} /\
    kafka_cdr_log cdr w = Some (r, w') /\
    trace w' = trace w ++ evs /\
    In (EvProduce p t ky payload len res) evs /\
    exists json,
      @cdr_json strict_host g cdr = Some json /\
      @ast_json_dump_string strict_host json = Some payload /\
      forall k, has_member json k = true <->
        In k fixed_members \/
        (@ast_config_AST_SYSTEM_NAME strict_host <> "" /\ k = "SystemName") \/
        (has_var cdr k = true /\ @utf8_check_string strict_host k = true) \/
        (loguniqueid g <> 0 /\ k = "uniqueid") \/
        (loguserfield g <> 0 /\ k = "userfield").
Proof.
  intros g cdr w. do 9 eexists.
  assert (Hnames : forall k, In k names_asked ->
            @utf8_check_string strict_host k = true).
  { intros k Hk. repeat (destruct Hk as [<-|Hk]; [reflexivity|]). destruct Hk. }
  assert (Hcreate : forall s, In s (@strings_asked strict_host g cdr) ->
            @ast_json_string_create strict_host s <> None).
  { intros s Hs. vm_compute in Hs.
    repeat (destruct Hs as [<-|Hs]; [discriminate|]). destruct Hs. }
  split; [exact Hnames|]. split; [exact Hcreate|].
  split; [reflexivity|].
  split; [vm_compute; reflexivity|].
  split; [vm_compute; reflexivity|].
  split; [left; reflexivity|].
  eapply (published_json_member_names (H := strict_host) cdr w _ g); eauto.
  left; reflexivity.
Defined.

Lemma published_json_values_witness :
  let g := {| connection := "main"; topic := "asterisk_cdr"; key := "";
              loguniqueid := 1; loguserfield := 0 |} in
  let cdr := with_vars (with_duration build_test_cdr (2 ^ 32 + 5))
               [{| name := "clid"; value := "first" |};
                {| name := "uniqueid"; value := "shadowed" |};
                {| name := String (ascii_of_nat 255) "x"; value := "dropped" |};
                {| name := "clid"; value := "spoofed" |}] in
  let w := strict_world {| global := Some g |} (Some 1%positive) in
  exists r w' evs p t ky payload len res,
    (forall k, In k names_asked -> @utf8_check_string strict_host k = true) /\
    (forall s, In s (@strings_asked strict_host g cdr) ->
       @ast_json_string_create strict_host s <> None) /\
    confs w = Some {| global := Some g |} /\
    kafka_cdr_log cdr w = Some (r, w') /\
    trace w' = trace w ++ evs /\
    In (EvProduce p t ky payload len res) evs /\
    exists json,
      @cdr_json strict_host g cdr = Some json /\
      @ast_json_dump_string strict_host json = Some payload /\
      forall k, ast_json_object_get json k = @published_value strict_host g cdr k.
Proof.
  intros g cdr w. do 9 eexists.
  assert (Hnames : forall k, In k names_asked ->
            @utf8_check_string strict_host k = true).
  { intros k Hk. repeat (destruct Hk as [<-|Hk]; [reflexivity|]). destruct Hk. }
  assert (Hcreate : forall s, In s (@strings_asked strict_host g cdr) ->
            @ast_json_string_create strict_host s <> None).
  { intros s Hs. vm_compute in Hs.
    repeat (destruct Hs as [<-|Hs]; [discriminate|]). destruct Hs. }
  split; [exact Hnames|]. split; [exact Hcreate|].
  split; [reflexivity|].
  split; [vm_compute; reflexivity|].
  split; [vm_compute; reflexivity|].
  split; [left; reflexivity|].
  eapply (published_json_values (H := strict_host) cdr w _ g); eauto.
  left; reflexivity.
Defined.

(** The values of that record: the last variable named clid wins over the
    record's caller id, the record's uniqueid wins over the variable, the
    variable under a refused name leaves no member, and a duration beyond
    the range of a C int is published as its low 32 bits. *)
Example published_values_run :
  let g := {| connection := "main"; topic := "asterisk_cdr"; key := "";
              loguniqueid := 1; loguserfield := 0 |} in
  let cdr := with_vars (with_duration build_test_cdr (2 ^ 32 + 5))
               [{| name := "clid"; value := "first" |};
                {| name := "uniqueid"; value := "shadowed" |};
                {| name := String (ascii_of_nat 255) "x"; value := "dropped" |};
                {| name := "clid"; value := "spoofed" |}] in
  @published_value strict_host g cdr "clid" = Some (JsonString "spoofed") /\
  @published_value strict_host g cdr "uniqueid" = Some (JsonString "1700000000.1") /\
  @published_value strict_host g cdr "src" = Some (JsonString "1001") /\
  @published_value strict_host g cdr "durationsec" = Some (JsonInteger 5) /\
  @published_value strict_host g cdr "billsec" = Some (JsonInteger 115) /\
  @published_value strict_host g cdr (String (ascii_of_nat 255) "x") = None /\
  @published_value strict_host g cdr "userfield" = None.
Proof. repeat split. Qed.

(** The producer of connection "main", cached and then used. *)
Lemma cached_producer_is_used_witness :
  let g := {| connection := "main"; topic := "asterisk_cdr"; key := "";
              loguniqueid := 0; loguserfield := 0 |} in
  let w0 := stub_world true {| global := Some g |} None in
  exists w r w' evs,
    confs w0 = Some {| global := Some g |} /\
    setup_cached_producer w0 = (0, w) /\
    kafka_cdr_log build_test_cdr w = Some (r, w') /\
    trace w' = trace w ++ evs /\
    exists p,
      fst (ast_kafka_get_producer (connection g) (kafka_st w0)) = Some p /\
      cached_producer w = Some p /\
      (forall e, In e evs -> is_get_producer e = false) /\
      (forall p' t ky pl len res, In (EvProduce p' t ky pl len res) evs -> p' = p).
Proof.
  intros g w0. do 4 eexists.
  split; [reflexivity|].
  split; [vm_compute; reflexivity|].
  split; [vm_compute; reflexivity|].
  split; [vm_compute; reflexivity|].
  eapply (cached_producer_is_used build_test_cdr w0 _ _ g);
    [reflexivity|vm_compute; reflexivity|vm_compute; reflexivity
    |vm_compute; reflexivity].
Defined.

(** Two records on an empty cache. *)
Lemma fallback_is_repeated_witness :
  let g := {| connection := "main"; topic := "asterisk_cdr"; key := "";
              loguniqueid := 0; loguserfield := 0 |} in
  let w := stub_world true {| global := Some g |} None in
  exists w1 w2 r1 r2,
    confs w = Some {| global := Some g |} /\
    cached_producer w = None /\
    kafka_cdr_log build_test_cdr w = Some (r1, w1) /\
    kafka_cdr_log build_test_cdr w1 = Some (r2, w2) /\
    cached_producer w2 = None /\
    exists ret1 rest1 ret2 rest2,
      trace w2 = trace w ++ (EvGetProducer (connection g) ret1 :: rest1)
                         ++ (EvGetProducer (connection g) ret2 :: rest2) /\
      (forall e, In e rest1 -> is_get_producer e = false) /\
      (forall e, In e rest2 -> is_get_producer e = false).
Proof.
  intros g w. do 4 eexists.
  split; [reflexivity|]. split; [reflexivity|].
  split; [vm_compute; reflexivity|].
  split; [vm_compute; reflexivity|].
  eapply (fallback_is_repeated build_test_cdr build_test_cdr w _ _ g);
    [reflexivity|reflexivity|vm_compute; reflexivity|vm_compute; reflexivity].
Defined.

(** A load with no producer to be had: connection "nope" is unknown to
    res_kafka, and the module loads all the same. *)
Example load_module_without_producer :
  let g := {| connection := "nope"; topic := "asterisk_cdr"; key := "";
              loguniqueid := 0; loguserfield := 0 |} in
  let s := fresh_system (Some {| global := Some g |}) false in
  fst (load_module s) = AST_MODULE_LOAD_SUCCESS /\
  cached_producer (module_st (snd (load_module s))) = None /\
  core_st (snd (load_module s)) = ["Kafka"].
Proof. repeat split. Qed.

(** An unload the CDR engine refuses: the backend stays registered and
    the holders are empty. *)
Example unload_module_refused :
  let g := {| connection := "main"; topic := "asterisk_cdr"; key := "";
              loguniqueid := 0; loguserfield := 0 |} in
  let s := snd (load_module (fresh_system (Some {| global := Some g |}) true)) in
  cached_producer (module_st s) = Some 1%positive /\
  fst (unload_module s) = -1 /\
  core_st (snd (unload_module s)) = ["Kafka"] /\
  kafka_cdr_log build_test_cdr (module_st (snd (unload_module s))) = None.
Proof. repeat split. Qed.

End CdrKafkaMore.
